(** * openapi-mcp-server: the specification-resolution pipeline

    A shallow embedding of the worker of janwilmake/openapi-mcp-server
    (the overview generator, the operation matcher and the two tool
    handlers) together with the older stdio handler that proxies oapis.org.

    Conventions.
    - A JavaScript string is modelled by [string]: one [ascii] per UTF-16
      code unit, restricted to code units below 256.  [String.length] is
      therefore the [.length] of the source.
    - A JavaScript object used as a map ([paths]) is the list of its own
      entries in the order [Object.entries] enumerates them.
    - Optional properties are [option]s.  A property the source tests for
      truthiness is absent when [None]; for strings the empty string is
      falsy as well, which the definitions spell out with [truthy].
    - [throw]/[try]/[catch] is an error monad carrying the message of the
      thrown [Error].
    - The network, the WHATWG URL parser, the Swagger converter and the
      dereferencing library are capabilities of the environment, gathered in
      the record [Capabilities]. The YAML serialiser [dump] is kept symbolic:
      the text [dump(d)] is the term [Dump d]. *)

From Stdlib Require Import String Ascii List ZArith Bool Lia.
From Stdlib Require Import DecimalString.
Import ListNotations.
Local Open Scope list_scope.
Local Open Scope string_scope.

Set Implicit Arguments.

(** ** JavaScript built-ins used by the source *)

Module JS.

(** Truthiness of a string value. *)
Definition truthy (s : string) : bool :=
  match s with EmptyString => false | String _ _ => true end.

(** Truthiness of an optional string property ([undefined] is falsy). *)
Definition truthyOpt (o : option string) : bool :=
  match o with Some s => truthy s | None => false end.

(** [s.startsWith(p)] *)
Definition startsWith (p s : string) : bool := String.prefix p s.

(** [s.slice(1)] *)
Definition slice1 (s : string) : string :=
  match s with EmptyString => EmptyString | String _ r => r end.

(** [s.split(sep)] for a separator of one code unit. *)
Fixpoint split (sep : ascii) (s : string) : list string :=
  match s with
  | EmptyString => [EmptyString]
  | String c r =>
      if Ascii.eqb c sep then EmptyString :: split sep r
      else match split sep r with
           | h :: t => String c h :: t
           | [] => [String c EmptyString]
           end
  end.

(** [a.join(sep)] *)
Definition join (sep : string) (a : list string) : string := String.concat sep a.

Definition upperUnit (c : ascii) : ascii :=
  let n := nat_of_ascii c in
  if (97 <=? n)%nat && (n <=? 122)%nat then ascii_of_nat (n - 32) else c.

Definition lowerUnit (c : ascii) : ascii :=
  let n := nat_of_ascii c in
  if (65 <=? n)%nat && (n <=? 90)%nat then ascii_of_nat (n + 32) else c.

Fixpoint mapUnits (f : ascii -> ascii) (s : string) : string :=
  match s with
  | EmptyString => EmptyString
  | String c r => String (f c) (mapUnits f r)
  end.

(** [s.toUpperCase()] and [s.toLowerCase()]; the source applies them to the
    method names only, which are ASCII, where they act on the letters a-z
    and A-Z alone. *)
Definition toUpperCase (s : string) : string := mapUnits upperUnit s.
Definition toLowerCase (s : string) : string := mapUnits lowerUnit s.

(** [s.length] as a number. *)
Definition length (s : string) : Z := Z.of_nat (String.length s).

(** An integer number interpolated in a template literal. *)
Definition numberToString (n : Z) : string := NilZero.string_of_int (Z.to_int n).

(** *** JSON.stringify on strings *)

Definition dquote : ascii := "034"%char.
Definition backslash : ascii := "092"%char.

Definition hexDigit (n : nat) : ascii :=
  nth n ["0"; "1"; "2"; "3"; "4"; "5"; "6"; "7"; "8"; "9";
         "a"; "b"; "c"; "d"; "e"; "f"]%char "0"%char.

(** QuoteJSONString on one code unit. *)
Definition quoteUnit (c : ascii) : string :=
  let n := nat_of_ascii c in
  if (n =? 34)%nat then String backslash (String dquote EmptyString)
  else if (n =? 92)%nat then String backslash (String backslash EmptyString)
  else if (n =? 8)%nat then String backslash "b"
  else if (n =? 12)%nat then String backslash "f"
  else if (n =? 10)%nat then String backslash "n"
  else if (n =? 13)%nat then String backslash "r"
  else if (n =? 9)%nat then String backslash "t"
  else if (n <? 32)%nat then
    String backslash
      (String "u" (String "0" (String "0"
         (String (hexDigit (n / 16)) (String (hexDigit (n mod 16)) EmptyString)))))
  else String c EmptyString.

Fixpoint quoteUnits (s : string) : string :=
  match s with
  | EmptyString => EmptyString
  | String c r => quoteUnit c ++ quoteUnits r
  end.

(** [JSON.stringify(s)] for a string [s]. *)
Definition stringifyString (s : string) : string :=
  String dquote (quoteUnits s ++ String dquote EmptyString).

End JS.

(** ** Data model (the TYPES section of the worker) *)

(** A value of TypeScript type [any]. *)
#[warnings="-register-all"]
Inductive JSON : Type :=
| JNull
| JBool (b : bool)
| JNum (n : Z)
| JStr (s : string)
| JArr (items : list JSON)
| JObj (members : list (string * JSON)).

Inductive ParameterIn : Type := in_query | in_header | in_path | in_cookie.

Record ParameterSchema : Type := {
  schema_type : string;
  schema_enum : option (list string);
  schema_default : option JSON;
}.

Record Parameter_ : Type := {
  name : string;
  in_ : ParameterIn;
  required : option bool;
  schema : option ParameterSchema;
  param_description : option string;
}.

Record RequestBody : Type := {
  body_required : option bool;
  body_content : list (string * JSON);
}.

Record Server : Type := {
  url : string;
  server_description : option string;
}.

Record Operation : Type := {
  operationId : option string;
  op_servers : option (list Server);
  summary : option string;
  op_description : option string;
  parameters : option (list Parameter_);
  requestBody : option RequestBody;
  responses : list (string * JSON);
}.

Record PathItem : Type := {
  get : option Operation;
  post : option Operation;
  put : option Operation;
  delete : option Operation;
  patch : option Operation;
}.

Record Info : Type := {
  title : string;
  version : string;
  description : option string;
}.

(** [info] and [paths] are required by the interface, yet the source guards
    both ([if (openapi.info)], [if (!openapi.paths)]): the model keeps them
    optional. *)
Record OpenapiDocument : Type := {
  tags : option JSON;
  components : option JSON;
  webhooks : option JSON;
  openapi : option string;
  servers : option (list Server);
  info : option Info;
  paths : option (list (string * PathItem));
}.

(** [paths[key]] on the own entries of the object. *)
Fixpoint lookup {A : Type} (key : string) (entries : list (string * A)) : option A :=
  match entries with
  | [] => None
  | (k, v) :: rest => if String.eqb k key then Some v else lookup key rest
  end.

(** [Object.keys] and [Object.values]. *)
Definition keys {A : Type} (entries : list (string * A)) : list string := map fst entries.
Definition values {A : Type} (entries : list (string * A)) : list A := map snd entries.

(** The five method names, as the literal array of the source has them. *)
Definition methods : list string := ["get"; "post"; "put"; "patch"; "delete"].

(** [pathItem[method]] for a method name. *)
Definition method_of (item : PathItem) (method : string) : option Operation :=
  if String.eqb method "get" then get item
  else if String.eqb method "post" then post item
  else if String.eqb method "put" then put item
  else if String.eqb method "patch" then patch item
  else if String.eqb method "delete" then delete item
  else None.

(** ** OPENAPI OPERATIONS: [matchOperation] *)

Record MatchedOperation : Type := {
  operation : Operation;
  originalPath : string;
  method : string;
}.

(** [operation?.operationId === normalizedPathname] *)
Definition hasOperationId (normalizedPathname : string) (o : option Operation) : bool :=
  match o with
  | Some op =>
      match operationId op with
      | Some i => String.eqb i normalizedPathname
      | None => false
      end
  | None => false
  end.

(** The [for ... of Object.entries(openapi.paths)] loop of [matchOperation]:
    the first path item with a matching method ends the loop. *)
Fixpoint matchByOperationId (normalizedPathname : string)
    (entries : list (string * PathItem)) : option MatchedOperation :=
  match entries with
  | [] => None
  | (p, pathItem) :: rest =>
      match find (fun httpMethod =>
                    hasOperationId normalizedPathname (method_of pathItem httpMethod))
                 methods with
      | Some matchingMethod =>
          match method_of pathItem matchingMethod with
          | Some op =>
              Some {| operation := op; originalPath := p;
                      method := JS.toUpperCase matchingMethod |}
          | None => None
          end
      | None => matchByOperationId normalizedPathname rest
      end
  end.

(** [openapi.paths[pathname]?.get] *)
Definition directMatch (entries : list (string * PathItem)) (pathname : string)
  : option Operation :=
  match lookup pathname entries with
  | Some item => get item
  | None => None
  end.

Definition matchOperation (openapi : OpenapiDocument) (pathname : string)
  : option MatchedOperation :=
  match paths openapi with
  | None => None
  | Some entries =>
      match directMatch entries pathname with
      | Some op =>
          Some {| operation := op; originalPath := pathname; method := "GET" |}
      | None =>
          let normalizedPathname := JS.slice1 pathname in
          matchByOperationId normalizedPathname entries
      end
  end.

(** ** Capabilities of the environment *)

(** The legacy marker [swagger] is read through a cast to [any]: it is kept
    beside the typed document. *)
Record RawDocument : Type := {
  swagger : option string;
  document : OpenapiDocument;
}.

(** What [searchOpenapi] hands to the handlers; a falsy [openapiJson] is
    [None]. *)
Record SearchResult : Type := {
  openapiUrl : string;
  openapiJson : option RawDocument;
}.

(** [throw new Error(message)] against a returned value. *)
Inductive Outcome (A : Type) : Type :=
| Return (a : A)
| Throw (message : string).
Arguments Return {A} a.
Arguments Throw {A} message.

Definition bind {A B : Type} (c : Outcome A) (k : A -> Outcome B) : Outcome B :=
  match c with
  | Return a => k a
  | Throw m => Throw m
  end.

Notation "x <- c ;; k" := (bind c (fun x => k))
  (at level 61, c at next level, right associativity).

Record Response : Type := {
  ok : bool;
  responseText : string;
}.

(** - [urlOrigin u] is [new URL(u).origin], [None] when the constructor throws;
    - [searchOpenapi id] is the outcome of the two fetches and of the parse
      of [searchOpenapi]: [Return None] when it returns nothing, [Throw]
      when a fetch is rejected;
    - [convertSwaggerToOpenapi u] is the answer of converter.swagger.io within
      ten seconds, [None] for [undefined];
    - [dereferenceSync d] is the dereferenced document, [None] when the
      library throws;
    - [fetch] and [encodeURIComponent] serve the stdio handlers. *)
Record Capabilities : Type := {
  urlOrigin : string -> option string;
  searchOpenapi : string -> Outcome (option SearchResult);
  convertSwaggerToOpenapi : string -> option OpenapiDocument;
  dereferenceSync : OpenapiDocument -> option OpenapiDocument;
  encodeURIComponent : string -> string;
  fetch : string -> Outcome Response;
}.

(** ** OVERVIEW GENERATOR: [generateOverview] *)

Definition LF : string := String "010"%char EmptyString.

(** [a.push(x)] *)
Definition push {A : Type} (a : list A) (x : A) : list A := (a ++ [x])%list.

(** [operation?.servers || rootServers || []]; the root list the callers pass
    is always an array, so the last alternative is never taken.  An array is
    truthy even when it is empty. *)
Definition getServerOrigin (env : Capabilities)
    (operation : option Operation) (rootServers : list Server) : string :=
  let servers :=
    match operation with
    | Some op =>
        match op_servers op with
        | Some own => own
        | None => rootServers
        end
    | None => rootServers
    end in
  match servers with
  | [] => EmptyString
  | server0 :: _ =>
      match urlOrigin env (url server0) with
      | Some origin => origin
      | None => hd EmptyString (JS.split "/" (url server0))
      end
  end.

(** [openapi.servers || []] *)
Definition rootServersOf (openapi : OpenapiDocument) : list Server :=
  match servers openapi with Some l => l | None => [] end.

Module Item.
Record t : Type := {
  operationId : string;
  pathPart : string;
  summaryPart : string;
  openapiUrl : string;
}.
End Item.

(** [`${p.name}=${p.schema?.type || p.name}`] *)
Definition queryPair (p : Parameter_) : string :=
  name p ++ "=" ++
  match schema p with
  | Some sch => if JS.truthy (schema_type sch) then schema_type sch else name p
  | None => name p
  end.

Definition isQuery (p : Parameter_) : bool :=
  match in_ p with in_query => true | _ => false end.

(** The body of the inner loop of [generateOverview] for a present operation. *)
Definition makeItem (env : Capabilities) (hostname : string)
    (openapi : OpenapiDocument) (path : string) (method : string)
    (operation : Operation) : Item.t :=
  let serverOrigin := getServerOrigin env (Some operation) (rootServersOf openapi) in
  let operationId :=
    match operationId operation with
    | Some i => if JS.truthy i then i else EmptyString
    | None => EmptyString
    end in
  let queryParams :=
    match parameters operation with
    | Some ps => Some (JS.join "&" (map queryPair (filter isQuery ps)))
    | None => None
    end in
  let queryString :=
    match queryParams with
    | Some q => if JS.truthy q then "?" ++ q else EmptyString
    | None => EmptyString
    end in
  let summaryPart :=
    match summary operation with
    | Some s => if JS.truthy s then " - " ++ s else EmptyString
    | None => EmptyString
    end in
  let pathPart := JS.toUpperCase method ++ " " ++ serverOrigin ++ path ++ queryString in
  let openapiUrl :=
    "https://oapis.org/openapi/" ++ hostname ++
    (if JS.truthy operationId then "/" ++ operationId else path) in
  {| Item.operationId := operationId; Item.pathPart := pathPart;
     Item.summaryPart := summaryPart; Item.openapiUrl := openapiUrl |}.

(** The two nested [for] loops filling [items]. *)
Definition collectItems (env : Capabilities) (hostname : string)
    (openapi : OpenapiDocument) : list Item.t :=
  match paths openapi with
  | Some entries =>
      fold_left
        (fun items entry =>
           let '(path, pathItem) := entry in
           fold_left
             (fun items method =>
                match method_of pathItem method with
                | None => items
                | Some operation =>
                    push items (makeItem env hostname openapi path method operation)
                end)
             methods items)
        entries []
  | None => []
  end.

(** [JSON.stringify(items)] *)
Definition stringifyMember (key value : string) : string :=
  JS.stringifyString key ++ ":" ++ JS.stringifyString value.

Definition stringifyItem (item : Item.t) : string :=
  "{" ++ JS.join ","
           [stringifyMember "operationId" (Item.operationId item);
            stringifyMember "pathPart" (Item.pathPart item);
            stringifyMember "summaryPart" (Item.summaryPart item);
            stringifyMember "openapiUrl" (Item.openapiUrl item)] ++ "}".

Definition stringifyItems (items : list Item.t) : string :=
  "[" ++ JS.join "," (map stringifyItem items) ++ "]".

(** The arrow function mapped over [items]. *)
Definition itemLine (isLong : bool) (item : Item.t) : string :=
  "- " ++ Item.operationId item ++
  (if isLong then " " else " " ++ Item.pathPart item) ++
  Item.summaryPart item ++ " ( Spec: " ++ Item.openapiUrl item ++ " )".

(** The lines pushed by the [if (openapi.info)] block. *)
Definition pushInfo (env : Capabilities) (openapi : OpenapiDocument)
    (output : list string) : list string :=
  match info openapi with
  | Some i =>
      let serverOrigin := getServerOrigin env None (rootServersOf openapi) in
      let output := push output (title i ++ " v" ++ version i ++ " - " ++ serverOrigin) in
      let output :=
        match description i with
        | Some d => if JS.truthy d then push output d else output
        | None => output
        end in
      push output EmptyString
  | None => output
  end.

Definition banner (hostname : string) (endpointCount : Z) : string :=
  "Below is an overview of the " ++ hostname ++
  " openapi in simple language. This API contains " ++
  JS.numberToString endpointCount ++
  " endpoints. For more detailed information of an endpoint, visit https://oapis.org/summary/" ++
  hostname ++ "/[idOrRoute]".

(** The lines of the overview before they are joined. *)
Definition overviewLines (env : Capabilities) (hostname : string)
    (openapi : OpenapiDocument) : list string :=
  let output := pushInfo env openapi [] in
  let items := collectItems env hostname openapi in
  let isLong := (50000 <? JS.length (stringifyItems items))%Z in
  let output := (output ++ map (itemLine isLong) items)%list in
  let endpointCount := (Z.of_nat (List.length output) - 3)%Z in
  let output := EmptyString :: output in
  let output := banner hostname endpointCount :: output in
  output.

Definition generateOverview (env : Capabilities) (hostname : string)
    (openapi : OpenapiDocument) : string :=
  JS.join LF (overviewLines env hostname openapi).

(** ** MCP HANDLERS *)

(** The text of a content block: a plain string, or the YAML text [dump(d)]
    of a document, which is kept symbolic. *)
Inductive Text : Type :=
| Plain (s : string)
| Dump (d : OpenapiDocument).

Record ContentBlock : Type := {
  type_ : string;
  text : Text;
}.

(** [isError] is missing from the successful results of the stdio handlers,
    [metadata] from every result of the worker. *)
Record ToolResult : Type := {
  content : list ContentBlock;
  metadata : option (list (string * JSON));
  isError : option bool;
}.

Definition textBlock (t : Text) : ContentBlock := {| type_ := "text"; text := t |}.

(** What the [catch] clause of both worker handlers returns. *)
Definition caught (message : string) : ToolResult :=
  {| content := [textBlock (Plain ("Error: " ++ message))];
     metadata := None;
     isError := Some true |}.

Definition succeeded (t : Text) : ToolResult :=
  {| content := [textBlock t]; metadata := None; isError := Some false |}.

(** [try { ... } catch (error) { ... }] around a handler body. *)
Definition tryCatch (body : Outcome ToolResult) : ToolResult :=
  match body with
  | Return r => r
  | Throw message => caught message
  end.

(** The classification both handlers compute. *)
Definition isSwagger (openapiJson : RawDocument) : bool :=
  JS.truthyOpt (swagger openapiJson) ||
  match openapi (document openapiJson) with
  | None => true
  | Some v => negb (JS.truthy v) || negb (JS.startsWith "3." v)
  end.

(** The conversion step both handlers share (from [const isSwagger] to the
    [Conversion failed] guard), the [normalize] of the specification. *)
Definition normalize (env : Capabilities) (openapiUrl : string)
    (openapiJson : RawDocument) : Outcome OpenapiDocument :=
  let convertedOpenapi :=
    if isSwagger openapiJson then convertSwaggerToOpenapi env openapiUrl
    else Some (document openapiJson) in
  match convertedOpenapi with
  | Some converted =>
      if JS.truthyOpt (openapi converted) then Return converted
      else Throw "Conversion failed"
  | None => Throw "Conversion failed"
  end.

(** The steps both handlers share before the conversion. *)
Definition locate (env : Capabilities) (id : string) : Outcome (string * RawDocument) :=
  openapi <- searchOpenapi env id ;;
  match openapi with
  | None => Throw "OpenAPI not found"
  | Some found =>
      match openapiJson found with
      | None => Throw "Could not parse OpenAPI JSON"
      | Some json => Return (openapiUrl found, json)
      end
  end.

Definition tooLargeMessage : string :=
  "The OpenAPI specification is too large to process with this MCP. Please try a different OpenAPI.".

Definition handleGetApiOverview (env : Capabilities) (id : string) : ToolResult :=
  if negb (JS.truthy id) then
    {| content := [textBlock (Plain "Error: 'id' parameter is required")];
       metadata := None;
       isError := Some true |}
  else
    tryCatch
      (located <- locate env id ;;
       convertedOpenapi <- normalize env (fst located) (snd located) ;;
       let overview := generateOverview env id convertedOpenapi in
       if (250000 <? JS.length overview)%Z then Throw tooLargeMessage
       else Return (succeeded (Plain overview))).

(** [item.get?.operationId] *)
Definition operationIdOf (o : option Operation) : option string :=
  match o with Some op => operationId op | None => None end.

(** The list built per path item by the not-found branch. *)
Definition itemOperationIds (item : PathItem) : list string :=
  map (fun x => match x with Some i => i | None => EmptyString end)
      (filter JS.truthyOpt
         [operationIdOf (get item); operationIdOf (post item);
          operationIdOf (delete item); operationIdOf (put item);
          operationIdOf (patch item)]).

Definition availableOperationIds (entries : list (string * PathItem)) : list string :=
  concat (map itemOperationIds (values entries)).

Definition notFoundMessage (entries : list (string * PathItem)) : string :=
  "Operation wasn't found. Available IDs: " ++
  JS.join ", " (availableOperationIds entries) ++
  ". Routes: " ++ JS.join ", " (keys entries).

(** [{ [key]: operation }] read as a path item; a key that names none of the
    five methods (there is none among the upper-cased method names lowered
    again) leaves the item empty. *)
Definition emptyPathItem : PathItem :=
  {| get := None; post := None; put := None; delete := None; patch := None |}.

Definition pathItemOf (key : string) (op : Operation) : PathItem :=
  if String.eqb key "get" then
    {| get := Some op; post := None; put := None; delete := None; patch := None |}
  else if String.eqb key "post" then
    {| get := None; post := Some op; put := None; delete := None; patch := None |}
  else if String.eqb key "put" then
    {| get := None; post := None; put := Some op; delete := None; patch := None |}
  else if String.eqb key "patch" then
    {| get := None; post := None; put := None; delete := None; patch := Some op |}
  else if String.eqb key "delete" then
    {| get := None; post := None; put := None; delete := Some op; patch := None |}
  else emptyPathItem.

(** [{ ...convertedOpenapi, paths: { [op.originalPath]: { ... } } }] *)
Definition subsetOf (convertedOpenapi : OpenapiDocument) (op : MatchedOperation)
  : OpenapiDocument :=
  {| tags := tags convertedOpenapi;
     components := components convertedOpenapi;
     webhooks := webhooks convertedOpenapi;
     openapi := openapi convertedOpenapi;
     servers := servers convertedOpenapi;
     info := info convertedOpenapi;
     paths := Some [(originalPath op,
                     pathItemOf (JS.toLowerCase (method op)) (operation op))] |}.

(** [const { tags, webhooks, components, ...dereferenced } = ...] *)
Definition withoutSections (d : OpenapiDocument) : OpenapiDocument :=
  {| tags := None;
     components := None;
     webhooks := None;
     openapi := openapi d;
     servers := servers d;
     info := info d;
     paths := paths d |}.

(** The inner [try]/[catch] of [handleGetApiOperation]. *)
Definition resolveDetail (env : Capabilities) (subset : OpenapiDocument) : ToolResult :=
  match dereferenceSync env subset with
  | Some d => succeeded (Dump (withoutSections d))
  | None => succeeded (Dump subset)
  end.

(** [Object.values] of a missing [paths] raises a TypeError, whose message
    is the one of V8. *)
Definition handleGetApiOperation (env : Capabilities)
    (id operationIdOrRoute : string) : ToolResult :=
  if negb (JS.truthy id) || negb (JS.truthy operationIdOrRoute) then
    {| content :=
         [textBlock
            (Plain "Error: Both 'id' and 'operationIdOrRoute' parameters are required")];
       metadata := None;
       isError := Some true |}
  else
    tryCatch
      (located <- locate env id ;;
       convertedOpenapi <- normalize env (fst located) (snd located) ;;
       match matchOperation convertedOpenapi ("/" ++ operationIdOrRoute) with
       | None =>
           match paths convertedOpenapi with
           | None => Throw "Cannot convert undefined or null to object"
           | Some entries => Throw (notFoundMessage entries)
           end
       | Some op => Return (resolveDetail env (subsetOf convertedOpenapi op))
       end).

(** ** The stdio handler [HANDLERS.getApiOverview] *)

Module HANDLERS.

Definition getApiOverview (env : Capabilities) (id : string) : ToolResult :=
  let outcome :=
    let url := "https://oapis.org/overview/" ++ encodeURIComponent env id in
    response <- fetch env url ;;
    if negb (ok response) then Throw ("API error: " ++ responseText response)
    else
      let responseContent := responseText response in
      let tooBig := (250000 <? JS.length responseContent)%Z in
      if tooBig then Throw tooLargeMessage
      else
        Return {| content := [textBlock (Plain responseContent)];
                  metadata := Some [];
                  isError := None |} in
  match outcome with
  | Return r => r
  | Throw message =>
      {| content := [textBlock (Plain ("Error: " ++ message))];
         metadata := Some [];
         isError := Some true |}
  end.

End HANDLERS.

(** ** The specification's wording, for comparison with the source *)

(** Every operation of a document with its route and method name, in
    path-then-method order (the order of an OverviewLine). *)
Definition operationsOfItem (route : string) (item : PathItem)
  : list (string * string * Operation) :=
  flat_map
    (fun m => match method_of item m with
              | Some op => [(route, m, op)]
              | None => []
              end)
    methods.

Definition operationsOf (entries : list (string * PathItem))
  : list (string * string * Operation) :=
  flat_map (fun entry => operationsOfItem (fst entry) (snd entry)) entries.

(** An operation carries the identifier [i]. *)
Definition identifiedBy (i : string) (q : string * string * Operation) : bool :=
  match operationId (snd q) with
  | Some j => String.eqb j i
  | None => false
  end.

Definition matchedOf (q : string * string * Operation) : MatchedOperation :=
  {| operation := snd q;
     originalPath := fst (fst q);
     method := JS.toUpperCase (snd (fst q)) |}.

(** Legacy input as the specification classifies it: a [swagger] field is
    present, or [openapi] is absent, or it does not start with 3. *)
Definition legacyInput (raw : RawDocument) : Prop :=
  swagger raw <> None \/
  openapi (document raw) = None \/
  exists v, openapi (document raw) = Some v /\ JS.startsWith "3." v = false.

(** The origin of one declared server: the parsed origin, or the first
    segment of the raw string when parsing fails. *)
Definition originOfServer (env : Capabilities) (s : Server) : string :=
  match urlOrigin env (url s) with
  | Some origin => origin
  | None => hd EmptyString (JS.split "/" (url s))
  end.

(** No code unit of [s] is [c]. *)
Fixpoint free (c : ascii) (s : string) : bool :=
  match s with
  | EmptyString => true
  | String d r => negb (Ascii.eqb d c) && free c r
  end.

(** The short form METHOD origin+path?name=type&... of an operation; the
    type of a parameter without a schema type is its name. *)
Definition shortForm (env : Capabilities) (openapi : OpenapiDocument)
    (q : string * string * Operation) : string :=
  let '(route, m, op) := q in
  let queries :=
    match parameters op with
    | Some ps => filter isQuery ps
    | None => []
    end in
  JS.toUpperCase m ++ " " ++
  getServerOrigin env (Some op) (rootServersOf openapi) ++ route ++
  match queries with
  | [] => EmptyString
  | _ :: _ => "?" ++ JS.join "&" (map queryPair queries)
  end.

Definition identifierPart (op : Operation) : string :=
  match operationId op with Some i => i | None => EmptyString end.

Definition summarySegment (op : Operation) : string :=
  match summary op with
  | Some s => if JS.truthy s then " - " ++ s else EmptyString
  | None => EmptyString
  end.

Definition pointerUrl (hostname : string) (q : string * string * Operation) : string :=
  "https://oapis.org/openapi/" ++ hostname ++
  (if JS.truthy (identifierPart (snd q)) then "/" ++ identifierPart (snd q)
   else fst (fst q)).

(** One overview line as the specification words it; [compact] is the
    lossy form chosen for very large item sets. *)
Definition operationLine (env : Capabilities) (hostname : string)
    (openapi : OpenapiDocument) (compact : bool)
    (q : string * string * Operation) : string :=
  "- " ++ identifierPart (snd q) ++ " " ++
  (if compact then EmptyString else shortForm env openapi q) ++
  summarySegment (snd q) ++
  " ( Spec: " ++ pointerUrl hostname q ++ " )".

(** The item pushed for one operation of the document. *)
Definition itemOf (env : Capabilities) (hostname : string) (doc : OpenapiDocument)
    (q : string * string * Operation) : Item.t :=
  makeItem env hostname doc (fst (fst q)) (snd (fst q)) (snd q).

(** The serialized item set exceeds 50,000 characters. *)
Definition itemSetIsLong (env : Capabilities) (hostname : string)
    (openapi : OpenapiDocument) : bool :=
  (50000 <? JS.length (stringifyItems (collectItems env hostname openapi)))%Z.

(** ** Example environments and documents

    Stand-ins for the capabilities, used to run the definitions on concrete
    inputs; the theorems below hold for every environment. *)

Module Examples.

(** Origin of an absolute http or https URL without port or credentials;
    every other string is refused, as a relative reference is by the URL
    constructor. *)
Definition httpOrigin (u : string) : option string :=
  if JS.startsWith "https://" u then
    Some ("https://" ++
          hd EmptyString (JS.split "/" (String.substring 8 (String.length u - 8) u)))
  else if JS.startsWith "http://" u then
    Some ("http://" ++
          hd EmptyString (JS.split "/" (String.substring 7 (String.length u - 7) u)))
  else None.

(** Replaces every object that is a lone reference to a component schema by
    that schema. *)
Definition schemaName (r : string) : string :=
  String.substring 21 (String.length r - 21) r.

Fixpoint inlineSchemas (schemas : list (string * JSON)) (j : JSON) : JSON :=
  match j with
  | JArr l => JArr (map (inlineSchemas schemas) l)
  | JObj [(k, JStr r)] =>
      if String.eqb k "$ref" && JS.startsWith "#/components/schemas/" r then
        match lookup (schemaName r) schemas with
        | Some target => target
        | None => j
        end
      else j
  | JObj ms =>
      JObj (map (fun kv => let '(k, v) := kv in (k, inlineSchemas schemas v)) ms)
  | _ => j
  end.

Definition schemasOf (d : OpenapiDocument) : list (string * JSON) :=
  match components d with
  | Some (JObj cs) =>
      match lookup "schemas" cs with
      | Some (JObj ss) => ss
      | _ => []
      end
  | _ => []
  end.

Definition inlineOperation (schemas : list (string * JSON)) (op : Operation) : Operation :=
  {| operationId := operationId op;
     op_servers := op_servers op;
     summary := summary op;
     op_description := op_description op;
     parameters := parameters op;
     requestBody := requestBody op;
     responses :=
       map (fun kv => let '(k, v) := kv in (k, inlineSchemas schemas v)) (responses op) |}.

Definition inlineItem (schemas : list (string * JSON)) (item : PathItem) : PathItem :=
  {| get := option_map (inlineOperation schemas) (get item);
     post := option_map (inlineOperation schemas) (post item);
     put := option_map (inlineOperation schemas) (put item);
     delete := option_map (inlineOperation schemas) (delete item);
     patch := option_map (inlineOperation schemas) (patch item) |}.

Definition inlineDocument (d : OpenapiDocument) : option OpenapiDocument :=
  Some {| tags := tags d;
          components := components d;
          webhooks := webhooks d;
          openapi := openapi d;
          servers := servers d;
          info := info d;
          paths :=
            option_map
              (map (fun kv => let '(k, v) := kv in (k, inlineItem (schemasOf d) v)))
              (paths d) |}.

Definition failingDereference (d : OpenapiDocument) : option OpenapiDocument := None.

Definition operationNamed (i : option string) (s : option string)
    (ps : option (list Parameter_)) : Operation :=
  {| operationId := i; op_servers := None; summary := s; op_description := None;
     parameters := ps; requestBody := None; responses := [] |}.

Definition onlyGet (op : Operation) : PathItem :=
  {| get := Some op; post := None; put := None; delete := None; patch := None |}.

Definition onlyPost (op : Operation) : PathItem :=
  {| get := None; post := Some op; put := None; delete := None; patch := None |}.

Definition documentOf (v : option string) (i : Info) (ss : option (list Server))
    (cs : option JSON) (entries : list (string * PathItem)) : OpenapiDocument :=
  {| tags := None; components := cs; webhooks := None; openapi := v;
     servers := ss; info := Some i; paths := Some entries |}.

(** The Pet Store scenario of the specification. *)
Definition limit : Parameter_ :=
  {| name := "limit"; in_ := in_query; required := None;
     schema := Some {| schema_type := "integer"; schema_enum := None;
                       schema_default := None |};
     param_description := None |}.

Definition petSchemas : JSON :=
  JObj [("schemas", JObj [("Pet", JObj [("type", JStr "object")])])].

Definition listPets : Operation :=
  {| operationId := Some "listPets"; op_servers := None;
     summary := Some "List pets"; op_description := None;
     parameters := Some [limit]; requestBody := None;
     responses :=
       [("200", JObj [("schema", JObj [("$ref", JStr "#/components/schemas/Pet")])])] |}.

Definition petInfo : Info :=
  {| title := "Pet Store"; version := "1.0"; description := None |}.

Definition petServers : list Server :=
  [{| url := "https://petstore.example.com/v1"; server_description := None |}].

Definition petStore : OpenapiDocument :=
  documentOf (Some "3.0.0") petInfo (Some petServers) (Some petSchemas)
             [("/pets", onlyGet listPets)].

(** The same specification without any operation. *)
Definition emptyStore : OpenapiDocument :=
  documentOf (Some "3.0.0") petInfo None None [].

(** A literal route /foo beside another operation whose identifier is foo. *)
Definition fooGet : Operation := operationNamed (Some "readFoo") None None.
Definition fooNamed : Operation := operationNamed (Some "foo") (Some "shadowed") None.
Definition fooTwice : Operation := operationNamed (Some "foo") (Some "second") None.

Definition fooStore : OpenapiDocument :=
  documentOf (Some "3.1.0") petInfo None None
             [("/bar", onlyPost fooNamed); ("/foo", onlyGet fooGet);
              ("/baz", onlyGet fooTwice)].

(** Route keys that begin with two separators, or are the lone separator. *)
Definition slashStore : OpenapiDocument :=
  documentOf (Some "3.0.0") petInfo None None
             [("//pets", onlyGet listPets); ("/", onlyGet fooGet)].

(** An operation whose identifier is the empty string. *)
Definition unnamed : Operation := operationNamed (Some EmptyString) None None.

Definition unnamedStore : OpenapiDocument :=
  documentOf (Some "3.0.0") petInfo None None
             [("/x", {| get := Some unnamed; post := Some fooNamed; put := None;
                        delete := None; patch := None |})].

(** A Swagger 2.0 document and two answers of the converter. *)
Definition legacyStore : RawDocument :=
  {| swagger := Some "2.0";
     document := documentOf None petInfo None None [("/pets", onlyGet listPets)] |}.

Definition stillLegacy : OpenapiDocument :=
  documentOf (Some "2.0") petInfo None None [("/pets", onlyGet listPets)].

(** Servers: an operation with an empty list of its own, a relative url. *)
Definition noOwnServers : Operation :=
  {| operationId := Some "ping"; op_servers := Some []; summary := None;
     op_description := None; parameters := None; requestBody := None;
     responses := [] |}.

Definition relativeServer : Server :=
  {| url := "api.example.com/v1/base"; server_description := None |}.

Definition ownServer : Operation :=
  {| operationId := Some "pong"; op_servers := Some [relativeServer]; summary := None;
     op_description := None; parameters := None; requestBody := None;
     responses := [] |}.

(** A description of 250,000 code units, a summary of 50,000. *)
Definition filler (n : N) : string := N.iter n (String "a") EmptyString.

Definition verboseStore : OpenapiDocument :=
  documentOf (Some "3.0.0")
             {| title := "Verbose"; version := "1.0";
                description := Some (filler 250000) |}
             None None [].

Definition wordy : Operation :=
  operationNamed (Some "wordy") (Some (filler 50000)) (Some [limit]).

Definition wordyStore : OpenapiDocument :=
  documentOf (Some "3.0.0") petInfo (Some petServers) None
             [("/wordy", onlyGet wordy); ("/pets", onlyGet listPets)].

(** The directory: which raw document each identifier leads to. *)
Definition directory (id : string) : option SearchResult :=
  let found (d : RawDocument) :=
    Some {| openapiUrl := "https://specs.example.com/" ++ id; openapiJson := Some d |} in
  let modern (d : OpenapiDocument) := found {| swagger := None; document := d |} in
  if String.eqb id "petstore" then modern petStore
  else if String.eqb id "empty" then modern emptyStore
  else if String.eqb id "foo" then modern fooStore
  else if String.eqb id "slash" then modern slashStore
  else if String.eqb id "unnamed" then modern unnamedStore
  else if String.eqb id "verbose" then modern verboseStore
  else if String.eqb id "wordy" then modern wordyStore
  else if String.eqb id "legacy" then found legacyStore
  else None.

Definition environment (convert : string -> option OpenapiDocument)
    (dereference : OpenapiDocument -> option OpenapiDocument) : Capabilities :=
  {| urlOrigin := httpOrigin;
     searchOpenapi := fun id => Return (directory id);
     convertSwaggerToOpenapi := convert;
     dereferenceSync := dereference;
     encodeURIComponent := fun s => s;
     fetch := fun u => Return {| ok := true; responseText := "overview of " ++ u |} |}.

(** A converter that answers with the Pet Store in 3.0 form, a dereferencer
    that inlines. *)
Definition env : Capabilities := environment (fun _ => Some petStore) inlineDocument.

(** A converter that hands back a document still in 2.0 form. *)
Definition envLegacy : Capabilities := environment (fun _ => Some stillLegacy) inlineDocument.

(** A dereferencer that throws. *)
Definition envNoDereference : Capabilities :=
  environment (fun _ => Some petStore) failingDereference.

End Examples.


(** ** MCP HANDLER: the dispatcher [handleMcp] and the exported [fetch]

    The JSON-RPC message is modelled in its typed form: a property that is
    present holds a string where the protocol has one.  A property that is
    [undefined] is [None]; interpolated in a template literal it reads
    undefined. *)

(** [s.includes(needle)] *)
Fixpoint includes (needle s : string) : bool :=
  String.prefix needle s ||
  match s with
  | EmptyString => false
  | String _ r => includes needle r
  end.

(** [`${x}`] for an optional string. *)
Definition interpolate (x : option string) : string :=
  match x with Some s => s | None => "undefined" end.

(** [x === literal] for an optional string. *)
Definition equals (x : option string) (literal : string) : bool :=
  match x with Some s => String.eqb s literal | None => false end.

Record ToolArguments : Type := {
  arg_id : option string;
  arg_operationIdOrRoute : option string;
}.

Record Params : Type := {
  uri : option string;
  tool_name : option string;
  arguments : option ToolArguments;
}.

Record Message : Type := {
  message_id : option JSON;
  message_method : option string;
  params : option Params;
}.

(** [json] is the outcome of [request.json()]: [Throw] when the body is no
    JSON, [Return None] when it is the value null; [req_pathname] is the
    pathname of [new URL(request.url)]; [accept] is
    [request.headers.get("accept")]. *)
Record HttpRequest : Type := {
  req_method : string;
  req_pathname : string;
  accept : option string;
  json : Outcome (option Message);
}.

(** The value handed to [jsonRpcResponse]. *)
Inductive RpcResult : Type :=
| EmptyObject
| InitializeResult
| PromptsList
| ResourcesList
| ToolsList (openapiIds : string)
| ToolCall (r : ToolResult).

(** The body of a response; the serialised JSON values are kept symbolic. *)
Inductive Body : Type :=
| NoBody
| TextBody (s : string)
| InitializeBody
| RpcResponseBody (id : option JSON) (result : RpcResult)
| RpcErrorBody (id : option JSON) (code : Z) (message : string).

Record HttpResponse : Type := {
  status : Z;
  headers : list (string * string);
  body : Body;
}.

Definition corsHeaders : list (string * string) :=
  [("Access-Control-Allow-Origin", "*");
   ("Access-Control-Allow-Methods", "POST, GET, OPTIONS");
   ("Access-Control-Allow-Headers", "Content-Type, Authorization, MCP-Protocol-Version")].

Definition jsonHeaders : list (string * string) :=
  ("Content-Type", "application/json") :: corsHeaders.

Definition jsonRpcResponse (id : option JSON) (result : RpcResult) : HttpResponse :=
  {| status := 200; headers := jsonHeaders; body := RpcResponseBody id result |}.

Definition jsonRpcError (id : option JSON) (code : Z) (message : string) : HttpResponse :=
  {| status := 200; headers := jsonHeaders; body := RpcErrorBody id code message |}.

(** [const { id } = args] raises a TypeError on a missing [args], whose
    message is the one of V8.  A missing [id] is falsy like the empty
    string, and the handlers only test it for truthiness before using it. *)
Definition orEmpty (x : option string) : string :=
  match x with Some s => s | None => EmptyString end.

Definition destructure (args : option ToolArguments) : Outcome ToolArguments :=
  match args with
  | Some a => Return a
  | None => Throw "Cannot destructure property 'id' of 'args' as it is undefined."
  end.

(** The [try] block of the tools/call branch. *)
Definition callTool (env : Capabilities) (id : option JSON) (p : Params)
  : Outcome HttpResponse :=
  if equals (tool_name p) "getApiOverview" then
    a <- destructure (arguments p) ;;
    Return (jsonRpcResponse id
              (ToolCall (handleGetApiOverview env (orEmpty (arg_id a)))))
  else if equals (tool_name p) "getApiOperation" then
    a <- destructure (arguments p) ;;
    Return (jsonRpcResponse id
              (ToolCall (handleGetApiOperation env (orEmpty (arg_id a))
                           (orEmpty (arg_operationIdOrRoute a)))))
  else
    Return (jsonRpcResponse id
              (ToolCall {| content :=
                             [textBlock
                                (Plain ("Error: Unknown tool: " ++
                                        interpolate (tool_name p)))];
                           metadata := None;
                           isError := Some true |})).

(** [const { ... } = message.params] *)
Definition paramsOf (message : Message) : Outcome Params :=
  match params message with
  | Some p => Return p
  | None => Throw "Cannot destructure property of 'message.params' as it is undefined."
  end.

(** The [try] block of [handleMcp]. *)
Definition handlePost (env : Capabilities) (request : HttpRequest)
  : Outcome HttpResponse :=
  parsed <- json request ;;
  match parsed with
  | None => Throw "Cannot read properties of null (reading 'method')"
  | Some message =>
      let m := message_method message in
      let id := message_id message in
      if equals m "ping" then Return (jsonRpcResponse id EmptyObject)
      else if equals m "initialize" then Return (jsonRpcResponse id InitializeResult)
      else if equals m "notifications/initialized" then
        Return {| status := 202; headers := corsHeaders; body := NoBody |}
      else if equals m "prompts/list" then Return (jsonRpcResponse id PromptsList)
      else if equals m "resources/list" then Return (jsonRpcResponse id ResourcesList)
      else if equals m "resources/read" then
        p <- paramsOf message ;;
        Return (jsonRpcError id (-32602) ("Resource not found: " ++ interpolate (uri p)))
      else if equals m "tools/list" then
        res <- fetch env "https://openapisearch.com/" ;;
        Return (jsonRpcResponse id (ToolsList (responseText res)))
      else if equals m "tools/call" then
        p <- paramsOf message ;;
        match callTool env id p with
        | Return response => Return response
        | Throw message =>
            Return (jsonRpcResponse id
                      (ToolCall {| content :=
                                     [textBlock
                                        (Plain ("Error executing tool: " ++ message))];
                                   metadata := None;
                                   isError := Some true |}))
        end
      else Return (jsonRpcError id (-32601) ("Method not found: " ++ interpolate m))
  end.

Definition handleMcp (env : Capabilities) (request : HttpRequest) : HttpResponse :=
  if String.eqb (req_method request) "GET" &&
     match accept request with
     | Some a => includes "text/event-stream" a
     | None => false
     end
  then {| status := 405; headers := corsHeaders;
          body := TextBody "Only Streamable HTTP is supported" |}
  else if String.eqb (req_method request) "GET" then
    {| status := 200; headers := jsonHeaders; body := InitializeBody |}
  else if negb (String.eqb (req_method request) "POST") then
    {| status := 405; headers := corsHeaders; body := TextBody "Method not allowed" |}
  else
    match handlePost env request with
    | Return response => response
    | Throw _ => jsonRpcError (Some JNull) (-32700) "Parse error"
    end.

(** The [fetch] of the default export. *)
Definition worker_fetch (env : Capabilities) (request : HttpRequest) : HttpResponse :=
  if String.eqb (req_method request) "OPTIONS" then
    {| status := 204; headers := corsHeaders; body := NoBody |}
  else if String.eqb (req_pathname request) "/" then
    {| status := 302; headers := [("Location", "/mcp")]; body := NoBody |}
  else if negb (String.eqb (req_pathname request) "/mcp") then
    {| status := 404; headers := corsHeaders; body := TextBody "Not found" |}
  else handleMcp env request.

(** The methods [handleMcp] answers. *)
Definition knownMethods : list string :=
  ["ping"; "initialize"; "notifications/initialized"; "prompts/list";
   "resources/list"; "resources/read"; "tools/list"; "tools/call"].

(** ** The overview as the specification words it

    These definitions read the document alone; they use none of the
    functions of the generator. *)

(** The operations of a path item under the label of their method, in the
    fixed order get, post, put, patch, delete. *)
Definition labelledOperations (item : PathItem) : list (string * Operation) :=
  flat_map
    (fun lo : string * option Operation =>
       match snd lo with
       | Some op => [(fst lo, op)]
       | None => []
       end)
    [("GET", get item); ("POST", post item); ("PUT", put item);
     ("PATCH", patch item); ("DELETE", delete item)].

(** Route, method label and operation, in document order of the paths. *)
Definition documentOperations (entries : list (string * PathItem))
  : list (string * string * Operation) :=
  flat_map
    (fun entry =>
       map (fun lo => (fst entry, fst lo, snd lo)) (labelledOperations (snd entry)))
    entries.

(** The type printed for a parameter: the type of its schema, its own name
    when there is none. *)
Definition specifiedType (p : Parameter_) : string :=
  match schema p with
  | Some sch =>
      match schema_type sch with
      | EmptyString => name p
      | String _ _ => schema_type sch
      end
  | None => name p
  end.

Definition specifiedPair (p : Parameter_) : string :=
  name p ++ "=" ++ specifiedType p.

Definition queryParameters (op : Operation) : list Parameter_ :=
  filter
    (fun p => match in_ p with
              | in_query => true
              | in_header | in_path | in_cookie => false
              end)
    (match parameters op with Some ps => ps | None => [] end).

Definition specifiedQuery (op : Operation) : string :=
  match queryParameters op with
  | [] => EmptyString
  | _ :: _ => "?" ++ String.concat "&" (map specifiedPair (queryParameters op))
  end.

Definition specifiedOrigin (env : Capabilities) (doc : OpenapiDocument)
    (op : Operation) : string :=
  let chosen :=
    match op_servers op with
    | Some own => own
    | None => match servers doc with Some root => root | None => [] end
    end in
  match chosen with
  | [] => EmptyString
  | s :: _ => originOfServer env s
  end.

Definition specifiedIdentifier (op : Operation) : string :=
  match operationId op with Some i => i | None => EmptyString end.

Definition specifiedSummary (op : Operation) : string :=
  match summary op with
  | Some (String c r) => " - " ++ String c r
  | Some EmptyString | None => EmptyString
  end.

Definition specifiedPointer (hostname route : string) (op : Operation) : string :=
  "https://oapis.org/openapi/" ++ hostname ++
  match specifiedIdentifier op with
  | EmptyString => route
  | String c r => "/" ++ String c r
  end.

(** METHOD origin+path?name=type&... *)
Definition specifiedShortForm (env : Capabilities) (doc : OpenapiDocument)
    (q : string * string * Operation) : string :=
  snd (fst q) ++ " " ++ specifiedOrigin env doc (snd q) ++ fst (fst q) ++
  specifiedQuery (snd q).

Definition specifiedLine (env : Capabilities) (hostname : string)
    (doc : OpenapiDocument) (compact : bool)
    (q : string * string * Operation) : string :=
  "- " ++ specifiedIdentifier (snd q) ++ " " ++
  (if compact then EmptyString else specifiedShortForm env doc q) ++
  specifiedSummary (snd q) ++
  " ( Spec: " ++ specifiedPointer hostname (fst (fst q)) (snd q) ++ " )".

Definition specifiedItem (env : Capabilities) (hostname : string)
    (doc : OpenapiDocument) (q : string * string * Operation) : Item.t :=
  {| Item.operationId := specifiedIdentifier (snd q);
     Item.pathPart := specifiedShortForm env doc q;
     Item.summaryPart := specifiedSummary (snd q);
     Item.openapiUrl := specifiedPointer hostname (fst (fst q)) (snd q) |}.

(** The JSON text of the item set exceeds 50,000 code units. *)
Definition specifiedCompact (env : Capabilities) (hostname : string)
    (doc : OpenapiDocument) (entries : list (string * PathItem)) : bool :=
  (50000 <?
   Z.of_nat
     (String.length
        (stringifyItems
           (map (specifiedItem env hostname doc) (documentOperations entries)))))%Z.

Definition specifiedHeader (env : Capabilities) (doc : OpenapiDocument) : list string :=
  match info doc with
  | None => []
  | Some i =>
      (title i ++ " v" ++ version i ++ " - " ++
       match servers doc with
       | Some (s :: _) => originOfServer env s
       | Some [] | None => EmptyString
       end)
      :: match description i with
         | Some (String c r) => [String c r; EmptyString]
         | Some EmptyString | None => [EmptyString]
         end
  end.

Definition specifiedBanner (hostname : string) (count : Z) : string :=
  "Below is an overview of the " ++ hostname ++
  " openapi in simple language. This API contains " ++
  JS.numberToString count ++
  " endpoints. For more detailed information of an endpoint, visit https://oapis.org/summary/" ++
  hostname ++ "/[idOrRoute]".

(** ** Further example documents and requests *)

Module Cases.

(** A specification whose info has a description, with two operations. *)
Definition describedStore : OpenapiDocument :=
  Examples.documentOf (Some "3.0.0")
    {| title := "Pet Store"; version := "1.0";
       description := Some "A store of pets" |}
    (Some Examples.petServers) None
    [("/pets", {| get := Some Examples.listPets;
                  post := Some (Examples.operationNamed (Some "addPet") None None);
                  put := None; delete := None; patch := None |})].

(** A GET operation without identifier, and a DELETE one. *)
Definition anonymous : Operation := Examples.operationNamed None (Some "Health") None.
Definition anonymousDelete : Operation := Examples.operationNamed None (Some "Drop") None.

Definition routeStore : OpenapiDocument :=
  Examples.documentOf (Some "3.0.0") Examples.petInfo None None
    [("/health", {| get := Some anonymous; post := None; put := None;
                    delete := Some anonymousDelete; patch := None |})].

(** A specification with 521 routes. *)
Definition manyStore : OpenapiDocument :=
  Examples.documentOf (Some "3.0.0") Examples.petInfo None None
    (map (fun n => ("/r" ++ JS.numberToString (Z.of_nat n), Examples.onlyGet anonymous))
         (seq 0 521)).

Definition postOf (m : Message) : HttpRequest :=
  {| req_method := "POST"; req_pathname := "/mcp"; accept := None;
     json := Return (Some m) |}.

Definition call (tool : string) (a : option ToolArguments) : Message :=
  {| message_id := Some (JNum 7); message_method := Some "tools/call";
     params := Some {| uri := None; tool_name := Some tool; arguments := a |} |}.

Definition method_only (m : string) : Message :=
  {| message_id := Some (JNum 1); message_method := Some m; params := None |}.

End Cases.

(** * Properties *)

(** ** Lists and strings *)

Lemma find_app_first :
  forall (A : Type) (f : A -> bool) (l1 l2 : list A),
    find f (l1 ++ l2)%list =
    match find f l1 with
    | Some x => Some x
    | None => find f l2
    end.
Proof.
  intros A f l1 l2; induction l1 as [|a l1 IH]; simpl.
  - reflexivity.
  - destruct (f a); [reflexivity | exact IH].
Qed.

Lemma find_all_false :
  forall (A : Type) (f : A -> bool) (l : list A),
    (forall y, In y l -> f y = false) -> find f l = None.
Proof.
  intros A f l; induction l as [|a l IH]; simpl; intros H.
  - reflexivity.
  - rewrite (H a (or_introl eq_refl)). apply IH. intros y Hy. apply H. now right.
Qed.

Lemma find_first_split :
  forall (A : Type) (f : A -> bool) (before after : list A) (x : A),
    f x = true ->
    (forall y, In y before -> f y = false) ->
    find f (before ++ x :: after)%list = Some x.
Proof.
  intros A f before after x Hx Hb.
  rewrite find_app_first, (find_all_false f before Hb). simpl. now rewrite Hx.
Qed.

(** ** The operation matcher *)

Lemma matchByOperationId_item :
  forall (n route : string) (item : PathItem) (ms : list string),
    option_map matchedOf
      (find (identifiedBy n)
         (flat_map (fun m => match method_of item m with
                             | Some op => [(route, m, op)]
                             | None => []
                             end) ms)) =
    match find (fun m => hasOperationId n (method_of item m)) ms with
    | Some m =>
        match method_of item m with
        | Some op =>
            Some {| operation := op; originalPath := route;
                    method := JS.toUpperCase m |}
        | None => None
        end
    | None => None
    end.
Proof.
  intros n route item ms; induction ms as [|m ms IH]; simpl.
  - reflexivity.
  - destruct (method_of item m) as [op|] eqn:Hm; simpl.
    + unfold identifiedBy at 1; simpl.
      destruct (operationId op) as [i|]; [destruct (String.eqb i n)|].
      * simpl. now rewrite Hm.
      * exact IH.
      * exact IH.
    + exact IH.
Qed.

Lemma matchByOperationId_first :
  forall (n : string) (entries : list (string * PathItem)),
    matchByOperationId n entries =
    option_map matchedOf (find (identifiedBy n) (operationsOf entries)).
Proof.
  intros n entries; induction entries as [|[route item] entries IH].
  - reflexivity.
  - unfold operationsOf. cbn [matchByOperationId flat_map fst snd].
    fold (operationsOf entries).
    rewrite find_app_first.
    pose proof (matchByOperationId_item n route item methods) as Hitem.
    fold (operationsOfItem route item) in Hitem.
    destruct (find (fun httpMethod => hasOperationId n (method_of item httpMethod)) methods)
      as [m|] eqn:Hfind.
    + destruct (find_some _ _ Hfind) as [_ Hhas].
      destruct (method_of item m) as [op|] eqn:Hm.
      2:{ simpl in Hhas. discriminate Hhas. }
      destruct (find (identifiedBy n) (operationsOfItem route item)) as [q|];
        simpl in Hitem; [|discriminate Hitem].
      exact (eq_sym Hitem).
    + destruct (find (identifiedBy n) (operationsOfItem route item)) as [q|];
        simpl in Hitem; [discriminate Hitem|].
      exact IH.
Qed.

(** C1. The matcher first tries the token as a literal route, using the GET
    method only; when that fails the token without its first code unit is
    compared with the operationId of every operation in path-then-method
    order and the first one that carries it is returned, so that of two
    operations with the same identifier the first declared wins; when none
    carries it nothing is returned.  In particular the token foo of a
    document with a route /foo that has a GET operation resolves to that
    operation, whichever other operations are identified by foo. *)
Theorem matchOperation_direct_then_operationId :
  forall (openapi : OpenapiDocument) (entries : list (string * PathItem))
         (pathname : string),
    paths openapi = Some entries ->
    (forall item op,
        lookup pathname entries = Some item -> get item = Some op ->
        matchOperation openapi pathname =
        Some {| operation := op; originalPath := pathname; method := "GET" |})
    /\
    (directMatch entries pathname = None ->
     (forall before q after,
         operationsOf entries = (before ++ q :: after)%list ->
         identifiedBy (JS.slice1 pathname) q = true ->
         (forall r, In r before -> identifiedBy (JS.slice1 pathname) r = false) ->
         matchOperation openapi pathname = Some (matchedOf q))
     /\
     ((forall r, In r (operationsOf entries) ->
                 identifiedBy (JS.slice1 pathname) r = false) ->
      matchOperation openapi pathname = None))
    /\
    (forall item op,
        lookup ("/" ++ "foo") entries = Some item -> get item = Some op ->
        JS.slice1 ("/" ++ "foo") = "foo" /\
        forall others,
          (forall q, In q others ->
                     In q (operationsOf entries) /\ identifiedBy "foo" q = true) ->
          matchOperation openapi ("/" ++ "foo") =
          Some {| operation := op; originalPath := "/foo"; method := "GET" |}).
Proof.
  intros openapi entries pathname Hpaths.
  assert (Hdirect : forall p item op,
             lookup p entries = Some item -> get item = Some op ->
             matchOperation openapi p =
             Some {| operation := op; originalPath := p; method := "GET" |}).
  { intros p item op Hl Hg. unfold matchOperation, directMatch.
    now rewrite Hpaths, Hl, Hg. }
  split; [|split].
  - intros item op. apply Hdirect.
  - intros Hnone.
    assert (Hm : matchOperation openapi pathname =
                 option_map matchedOf
                   (find (identifiedBy (JS.slice1 pathname)) (operationsOf entries))).
    { unfold matchOperation. rewrite Hpaths, Hnone. apply matchByOperationId_first. }
    split.
    + intros before q after Hsplit Hq Hbefore.
      rewrite Hm, Hsplit, (find_first_split _ before after q Hq Hbefore).
      reflexivity.
    + intros Hall. rewrite Hm, (find_all_false _ _ Hall). reflexivity.
  - intros item op Hl Hg. split; [reflexivity|].
    intros others _. exact (Hdirect _ item op Hl Hg).
Qed.

Lemma matchOperation_direct_then_operationId_witness :
  matchOperation Examples.fooStore "/foo" =
  Some {| operation := Examples.fooGet; originalPath := "/foo"; method := "GET" |}
  /\
  matchOperation Examples.fooStore "?foo" =
  Some {| operation := Examples.fooNamed; originalPath := "/bar"; method := "POST" |}.
Proof.
  split.
  - apply (proj1 (matchOperation_direct_then_operationId
                    Examples.fooStore "/foo" eq_refl)
             (Examples.onlyGet Examples.fooGet) Examples.fooGet);
      reflexivity.
  - apply (proj1 (proj1 (proj2 (matchOperation_direct_then_operationId
                                  Examples.fooStore "?foo" eq_refl))
                    eq_refl)
             [] ("/bar", "post", Examples.fooNamed)
             [("/foo", "get", Examples.fooGet); ("/baz", "get", Examples.fooTwice)]).
    + reflexivity.
    + reflexivity.
    + intros r [].
Defined.

(** ** Normalisation *)

Lemma truthyOpt_some :
  forall o, JS.truthyOpt o = true -> exists v, o = Some v /\ v <> EmptyString.
Proof.
  intros [[|c r]|]; simpl; intros H; try discriminate H.
  exists (String c r). split; [reflexivity | discriminate].
Qed.

Lemma normalize_returns :
  forall env u raw d,
    normalize env u raw = Return d ->
    JS.truthyOpt (openapi d) = true /\
    ((isSwagger raw = false /\ d = document raw) \/
     (isSwagger raw = true /\ convertSwaggerToOpenapi env u = Some d)).
Proof.
  intros env u raw d. unfold normalize.
  destruct (isSwagger raw) eqn:Hs.
  - destruct (convertSwaggerToOpenapi env u) as [c|]; [|discriminate].
    destruct (JS.truthyOpt (openapi c)) eqn:Ht; [|discriminate].
    intros H; injection H as <-. split; [exact Ht | right; now split].
  - destruct (JS.truthyOpt (openapi (document raw))) eqn:Ht; [|discriminate].
    intros H; injection H as <-. split; [exact Ht | left; now split].
Qed.

Lemma normalize_outcome :
  forall env u raw,
    normalize env u raw = Throw "Conversion failed" \/
    exists d, normalize env u raw = Return d.
Proof.
  intros env u raw. unfold normalize.
  destruct (if isSwagger raw then convertSwaggerToOpenapi env u
            else Some (document raw)) as [c|]; [|now left].
  destruct (JS.truthyOpt (openapi c)); [right; now exists c | now left].
Qed.

Lemma modern_starts_with_3 :
  forall raw v,
    isSwagger raw = false -> openapi (document raw) = Some v ->
    JS.startsWith "3." v = true.
Proof.
  intros raw v. unfold isSwagger. intros Hs Hv. rewrite Hv in Hs.
  apply orb_false_iff in Hs as [_ Hs]. apply orb_false_iff in Hs as [_ Hs].
  now apply negb_false_iff in Hs.
Qed.

(** The handlers once the raw document is located. *)
Lemma overview_when_conversion_fails :
  forall env id u raw m,
    JS.truthy id = true ->
    locate env id = Return (u, raw) ->
    normalize env u raw = Throw m ->
    handleGetApiOverview env id = caught m.
Proof.
  intros env id u raw m Hid Hloc Hnorm.
  unfold handleGetApiOverview. rewrite Hid, Hloc.
  cbn [negb bind fst snd]. rewrite Hnorm. reflexivity.
Qed.

Lemma overview_when_normalized :
  forall env id u raw doc,
    JS.truthy id = true ->
    locate env id = Return (u, raw) ->
    normalize env u raw = Return doc ->
    handleGetApiOverview env id =
    if (250000 <? JS.length (generateOverview env id doc))%Z
    then caught tooLargeMessage
    else succeeded (Plain (generateOverview env id doc)).
Proof.
  intros env id u raw doc Hid Hloc Hnorm.
  unfold handleGetApiOverview. rewrite Hid, Hloc.
  cbn [negb bind fst snd]. rewrite Hnorm. cbn [bind].
  destruct (250000 <? JS.length (generateOverview env id doc))%Z; reflexivity.
Qed.

Lemma operation_when_conversion_fails :
  forall env id token u raw m,
    JS.truthy id = true ->
    JS.truthy token = true ->
    locate env id = Return (u, raw) ->
    normalize env u raw = Throw m ->
    handleGetApiOperation env id token = caught m.
Proof.
  intros env id token u raw m Hid Htok Hloc Hnorm.
  unfold handleGetApiOperation. rewrite Hid, Htok, Hloc.
  cbn [negb orb bind fst snd]. rewrite Hnorm. reflexivity.
Qed.

Lemma operation_when_normalized :
  forall env id token u raw doc,
    JS.truthy id = true ->
    JS.truthy token = true ->
    locate env id = Return (u, raw) ->
    normalize env u raw = Return doc ->
    handleGetApiOperation env id token =
    match matchOperation doc ("/" ++ token) with
    | Some op => resolveDetail env (subsetOf doc op)
    | None =>
        match paths doc with
        | Some entries => caught (notFoundMessage entries)
        | None => caught "Cannot convert undefined or null to object"
        end
    end.
Proof.
  intros env id token u raw doc Hid Htok Hloc Hnorm.
  unfold handleGetApiOperation. rewrite Hid, Htok, Hloc.
  cbn [negb orb bind fst snd]. rewrite Hnorm. cbn [bind].
  destruct (matchOperation doc ("/" ++ token)); [reflexivity|].
  destruct (paths doc); reflexivity.
Qed.

(** C2, amended. For a legacy input normalisation either fails with the
    error Conversion failed or yields a document whose openapi field is
    present and not empty: the answer of the converter, or the input itself
    when nothing but an empty swagger field marked it as legacy.  The field
    of the result starts with 3. whenever the one of the converter's answer
    does; the version of that answer is not inspected.  An answer without an
    openapi field, or no answer, ends both handlers with that error. *)
Theorem normalize_legacy_input :
  forall (env : Capabilities) (u : string) (raw : RawDocument),
    legacyInput raw ->
    (isSwagger raw = true \/
     swagger raw = Some EmptyString /\
     exists v, openapi (document raw) = Some v /\ JS.startsWith "3." v = true)
    /\
    (normalize env u raw = Throw "Conversion failed" \/
     exists d v,
       normalize env u raw = Return d /\ openapi d = Some v /\ v <> EmptyString /\
       ((d = document raw /\ JS.startsWith "3." v = true) \/
        convertSwaggerToOpenapi env u = Some d))
    /\
    ((forall d v, convertSwaggerToOpenapi env u = Some d ->
                  openapi d = Some v -> v <> EmptyString ->
                  JS.startsWith "3." v = true) ->
     forall d, normalize env u raw = Return d ->
               exists v, openapi d = Some v /\ JS.startsWith "3." v = true)
    /\
    (isSwagger raw = true ->
     (forall d, convertSwaggerToOpenapi env u = Some d ->
                JS.truthyOpt (openapi d) = false) ->
     normalize env u raw = Throw "Conversion failed")
    /\
    (forall id operationIdOrRoute,
        JS.truthy id = true ->
        locate env id = Return (u, raw) ->
        normalize env u raw = Throw "Conversion failed" ->
        handleGetApiOverview env id = caught "Conversion failed" /\
        (JS.truthy operationIdOrRoute = true ->
         handleGetApiOperation env id operationIdOrRoute = caught "Conversion failed")).
Proof.
  intros env u raw Hlegacy.
  split; [|split; [|split; [|split]]].
  - destruct (isSwagger raw) eqn:Hs; [now left|right].
    unfold isSwagger in Hs. apply orb_false_iff in Hs as [Hsw Hv].
    destruct (openapi (document raw)) as [v|] eqn:Ho; [|discriminate Hv].
    apply orb_false_iff in Hv as [_ H3]. apply negb_false_iff in H3.
    split; [|now exists v].
    destruct Hlegacy as [Hl|[Hl|[w [Hw Hl]]]].
    + destruct (swagger raw) as [[|c r]|].
      * reflexivity.
      * simpl in Hsw. discriminate Hsw.
      * now contradiction Hl.
    + rewrite Ho in Hl. discriminate Hl.
    + rewrite Ho in Hw. injection Hw as <-. rewrite H3 in Hl. discriminate Hl.
  - destruct (normalize_outcome env u raw) as [H|[d H]]; [now left|right].
    destruct (normalize_returns _ _ _ H) as [Ht Hwhich].
    destruct (truthyOpt_some _ Ht) as [v [Hv Hne]].
    exists d, v. repeat split; try assumption.
    destruct Hwhich as [[Hs ->]|[_ Hc]]; [left|now right].
    split; [reflexivity | exact (modern_starts_with_3 raw Hs Hv)].
  - intros Hconv d H.
    destruct (normalize_returns _ _ _ H) as [Ht Hwhich].
    destruct (truthyOpt_some _ Ht) as [v [Hv Hne]].
    exists v. split; [exact Hv|].
    destruct Hwhich as [[Hs ->]|[_ Hc]].
    + exact (modern_starts_with_3 raw Hs Hv).
    + exact (Hconv d v Hc Hv Hne).
  - intros Hs Hbad. unfold normalize. rewrite Hs.
    destruct (convertSwaggerToOpenapi env u) as [c|] eqn:Hc; [|reflexivity].
    now rewrite (Hbad c eq_refl).
  - intros id token Hid Hloc Hnorm. split.
    + exact (overview_when_conversion_fails env id Hid Hloc Hnorm).
    + intros Htok. exact (operation_when_conversion_fails env id token Hid Htok Hloc Hnorm).
Qed.

Lemma normalize_legacy_input_witness :
  legacyInput Examples.legacyStore /\
  exists v,
    openapi Examples.petStore = Some v /\ JS.startsWith "3." v = true.
Proof.
  assert (H : legacyInput Examples.legacyStore) by (left; discriminate).
  split; [exact H|].
  apply (proj1 (proj2 (proj2 (normalize_legacy_input Examples.env
                                "https://specs.example.com/legacy" H)))).
  - intros d v Hd Hv _. injection Hd as <-. injection Hv as <-. reflexivity.
  - reflexivity.
Defined.

(** C2 as stated fails: the converter may answer with a document that is
    still in 2.0 form, and it is returned. *)
Lemma legacy_answer_is_returned :
  legacyInput Examples.legacyStore /\
  normalize Examples.envLegacy "https://specs.example.com/legacy" Examples.legacyStore
  = Return Examples.stillLegacy /\
  isError (handleGetApiOverview Examples.envLegacy "legacy") = Some false /\
  ~ (normalize Examples.envLegacy "https://specs.example.com/legacy"
       Examples.legacyStore = Throw "Conversion failed" \/
     exists d v,
       normalize Examples.envLegacy "https://specs.example.com/legacy"
         Examples.legacyStore = Return d /\
       openapi d = Some v /\ JS.startsWith "3." v = true).
Proof.
  split; [left; discriminate|].
  split; [reflexivity|].
  split; [reflexivity|].
  intros [H|[d [v [Hd [Hv H3]]]]].
  - discriminate H.
  - vm_compute in Hd. injection Hd as <-. injection Hv as <-. discriminate H3.
Qed.

(** ** The size ceiling of the overview *)

Lemma overview_starts_with_banner :
  forall env hostname doc,
    exists rest, generateOverview env hostname doc = String "B" rest.
Proof.
  intros env hostname doc. unfold generateOverview, overviewLines, JS.join, banner.
  cbn [String.concat String.append]. eexists. reflexivity.
Qed.

Lemma truncation_starts_alike :
  forall (c : ascii) (rest : string) (n : nat),
    String.substring 0 n (String c rest) = EmptyString \/
    exists r, String.substring 0 n (String c rest) = String c r.
Proof.
  intros c rest [|n]; simpl; [now left | right; eexists; reflexivity].
Qed.

(** C3. Once a document is normalised, an overview longer than 250,000
    code units makes [handleGetApiOverview] answer with an error result
    whose one text block carries the too-large message, which is no
    truncation of the overview; an overview of at most 250,000 code units is
    the text of the one block of a successful result, as it was generated.
    The stdio handler treats the text it fetched in the same way. *)
Theorem overview_ceiling :
  forall (env : Capabilities) (id u : string) (raw : RawDocument)
         (doc : OpenapiDocument),
    JS.truthy id = true ->
    locate env id = Return (u, raw) ->
    normalize env u raw = Return doc ->
    ((250000 < JS.length (generateOverview env id doc))%Z ->
     content (handleGetApiOverview env id) =
     [{| type_ := "text";
         text := Plain "Error: The OpenAPI specification is too large to process with this MCP. Please try a different OpenAPI." |}] /\
     metadata (handleGetApiOverview env id) = None /\
     isError (handleGetApiOverview env id) = Some true /\
     forall n block,
       In block (content (handleGetApiOverview env id)) ->
       text block <> Plain (String.substring 0 n (generateOverview env id doc)))
    /\
    ((JS.length (generateOverview env id doc) <= 250000)%Z ->
     content (handleGetApiOverview env id) =
     [{| type_ := "text"; text := Plain (generateOverview env id doc) |}] /\
     metadata (handleGetApiOverview env id) = None /\
     isError (handleGetApiOverview env id) = Some false)
    /\
    (forall response,
        fetch env ("https://oapis.org/overview/" ++ encodeURIComponent env id)
        = Return response ->
        ok response = true ->
        ((250000 < JS.length (responseText response))%Z ->
         content (HANDLERS.getApiOverview env id) =
         [{| type_ := "text";
             text := Plain "Error: The OpenAPI specification is too large to process with this MCP. Please try a different OpenAPI." |}] /\
         metadata (HANDLERS.getApiOverview env id) = Some [] /\
         isError (HANDLERS.getApiOverview env id) = Some true)
        /\
        ((JS.length (responseText response) <= 250000)%Z ->
         content (HANDLERS.getApiOverview env id) =
         [{| type_ := "text"; text := Plain (responseText response) |}] /\
         metadata (HANDLERS.getApiOverview env id) = Some [] /\
         isError (HANDLERS.getApiOverview env id) = None)).
Proof.
  intros env id u raw doc Hid Hloc Hnorm.
  pose proof (overview_when_normalized env id Hid Hloc Hnorm) as Hh.
  split; [|split].
  - intros Hlong. apply Z.ltb_lt in Hlong. rewrite Hlong in Hh.
    rewrite Hh. split; [reflexivity|]. split; [reflexivity|]. split; [reflexivity|].
    intros n block [<-|[]] Heq. cbn [text textBlock] in Heq.
    destruct (overview_starts_with_banner env id doc) as [rest Hb].
    rewrite Hb in Heq.
    destruct (truncation_starts_alike "B" rest n) as [He|[r He]];
      rewrite He in Heq; discriminate Heq.
  - intros Hshort. apply Z.ltb_ge in Hshort. rewrite Hshort in Hh.
    rewrite Hh. repeat split.
  - intros response Hfetch Hok. unfold HANDLERS.getApiOverview.
    rewrite Hfetch. cbn [bind]. rewrite Hok. cbn [negb].
    split.
    + intros Hlong. apply Z.ltb_lt in Hlong. rewrite Hlong. repeat split.
    + intros Hshort. apply Z.ltb_ge in Hshort. rewrite Hshort. repeat split.
Qed.

Lemma overview_ceiling_witness :
  (content (handleGetApiOverview Examples.env "verbose") =
   [{| type_ := "text";
       text := Plain "Error: The OpenAPI specification is too large to process with this MCP. Please try a different OpenAPI." |}] /\
   isError (handleGetApiOverview Examples.env "verbose") = Some true)
  /\
  (content (handleGetApiOverview Examples.env "petstore") =
   [{| type_ := "text";
       text :=
         Plain ("Below is an overview of the petstore openapi in simple language. This API contains 0 endpoints. For more detailed information of an endpoint, visit https://oapis.org/summary/petstore/[idOrRoute]" ++
                LF ++ LF ++
                "Pet Store v1.0 - https://petstore.example.com" ++ LF ++ LF ++
                "- listPets GET https://petstore.example.com/pets?limit=integer - List pets ( Spec: https://oapis.org/openapi/petstore/listPets )") |}] /\
   isError (handleGetApiOverview Examples.env "petstore") = Some false).
Proof.
  split.
  - destruct (proj1 (overview_ceiling Examples.env "verbose"
                       (u := "https://specs.example.com/verbose")
                       (raw := {| swagger := None; document := Examples.verboseStore |})
                       eq_refl eq_refl eq_refl)) as [Hc [_ [He _]]].
    + vm_compute. reflexivity.
    + split; [exact Hc | exact He].
  - destruct (proj1 (proj2 (overview_ceiling Examples.env "petstore"
                              (u := "https://specs.example.com/petstore")
                              (raw := {| swagger := None; document := Examples.petStore |})
                              eq_refl eq_refl eq_refl))) as [Hc [_ He]].
    + vm_compute. discriminate.
    + split; [|exact He]. rewrite Hc. vm_compute. reflexivity.
Defined.

(** ** The operations of a document *)

Lemma in_operationsOf :
  forall (entries : list (string * PathItem)) (route m : string) (op : Operation),
    In (route, m, op) (operationsOf entries) <->
    In m methods /\
    exists item, In (route, item) entries /\ method_of item m = Some op.
Proof.
  intros entries route m op. unfold operationsOf, operationsOfItem.
  rewrite in_flat_map. split.
  - intros [[r item] [Hin Hq]]. cbn [fst snd] in Hq.
    apply in_flat_map in Hq as [m' [Hm' Hq]].
    destruct (method_of item m') as [op'|] eqn:Hop; [|contradiction].
    destruct Hq as [Hq|[]]. injection Hq as -> -> ->.
    split; [exact Hm'|]. exists item. now split.
  - intros [Hm [item [Hin Hop]]]. exists (route, item). split; [exact Hin|].
    cbn [fst snd]. apply in_flat_map. exists m. split; [exact Hm|].
    rewrite Hop. now left.
Qed.

Lemma truthy_nonempty :
  forall s, JS.truthy s = true <-> s <> EmptyString.
Proof.
  intros [|c r]; simpl; split; intros H.
  - discriminate H.
  - now contradiction H.
  - discriminate.
  - reflexivity.
Qed.

Lemma operationIdOf_some :
  forall o i,
    operationIdOf o = Some i <-> exists op, o = Some op /\ operationId op = Some i.
Proof.
  intros [op|] i; simpl; split.
  - intros H. now exists op.
  - intros [op' [Ho Hi]]. now injection Ho as ->.
  - discriminate.
  - intros [op' [Ho _]]. discriminate Ho.
Qed.

Lemma in_itemOperationIds :
  forall (item : PathItem) (i : string),
    In i (itemOperationIds item) <->
    i <> EmptyString /\
    exists m op, In m methods /\ method_of item m = Some op /\ operationId op = Some i.
Proof.
  intros item i. unfold itemOperationIds. rewrite in_map_iff. split.
  - intros [x [Hx Hin]]. apply filter_In in Hin as [Hin Ht].
    destruct x as [s|]; [|discriminate Ht]. subst s.
    split; [now apply truthy_nonempty|].
    assert (Hpick : forall m o, In m methods -> method_of item m = o ->
                                operationIdOf o = Some i ->
                                exists m op, In m methods /\ method_of item m = Some op /\
                                             operationId op = Some i).
    { intros m o Hm Ho Hi. apply operationIdOf_some in Hi as [op [-> Hi]].
      now exists m, op. }
    simpl in Hin.
    destruct Hin as [H|[H|[H|[H|[H|[]]]]]].
    + apply (Hpick "get" (get item)); [simpl; tauto | reflexivity | exact H].
    + apply (Hpick "post" (post item)); [simpl; tauto | reflexivity | exact H].
    + apply (Hpick "delete" (delete item)); [simpl; tauto | reflexivity | exact H].
    + apply (Hpick "put" (put item)); [simpl; tauto | reflexivity | exact H].
    + apply (Hpick "patch" (patch item)); [simpl; tauto | reflexivity | exact H].
  - intros [Hne [m [op [Hm [Hop Hi]]]]]. exists (Some i). split; [reflexivity|].
    apply filter_In. split; [|now apply truthy_nonempty].
    assert (Hid : operationIdOf (method_of item m) = Some i)
      by (apply operationIdOf_some; now exists op).
    simpl in Hm.
    destruct Hm as [<-|[<-|[<-|[<-|[<-|[]]]]]]; simpl; rewrite <- Hid; tauto.
Qed.

Lemma in_availableOperationIds :
  forall (entries : list (string * PathItem)) (i : string),
    In i (availableOperationIds entries) <->
    i <> EmptyString /\
    exists q, In q (operationsOf entries) /\ operationId (snd q) = Some i.
Proof.
  intros entries i. unfold availableOperationIds, values.
  rewrite in_concat. split.
  - intros [l [Hl Hi]]. apply in_map_iff in Hl as [item [<- Hitem]].
    apply in_map_iff in Hitem as [[route item'] [Heq Hin]]. cbn [snd] in Heq. subst item'.
    apply in_itemOperationIds in Hi as [Hne [m [op [Hm [Hop Hid]]]]].
    split; [exact Hne|]. exists (route, m, op). split; [|exact Hid].
    apply in_operationsOf. split; [exact Hm|]. now exists item.
  - intros [Hne [[[route m] op] [Hq Hid]]]. cbn [snd] in Hid.
    apply in_operationsOf in Hq as [Hm [item [Hin Hop]]].
    exists (itemOperationIds item). split.
    + apply in_map_iff. exists item. split; [reflexivity|].
      apply in_map_iff. now exists (route, item).
    + apply in_itemOperationIds. split; [exact Hne|]. now exists m, op.
Qed.

(** ** The not-found answer *)

(** C4, amended. For a normalised document with its paths and a token that
    is not empty and matches no operation, [handleGetApiOperation] answers
    with an error result whose message lists, after Available IDs, exactly
    the operationIds that are not empty of all operations of the document
    and, after Routes, all route keys of its paths. *)
Theorem not_found_enumerates :
  forall (env : Capabilities) (id token u : string) (raw : RawDocument)
         (doc : OpenapiDocument) (entries : list (string * PathItem)),
    JS.truthy id = true ->
    JS.truthy token = true ->
    locate env id = Return (u, raw) ->
    normalize env u raw = Return doc ->
    paths doc = Some entries ->
    matchOperation doc ("/" ++ token) = None ->
    isError (handleGetApiOperation env id token) = Some true /\
    content (handleGetApiOperation env id token) =
    [textBlock
       (Plain ("Error: Operation wasn't found. Available IDs: " ++
               JS.join ", " (availableOperationIds entries) ++
               ". Routes: " ++ JS.join ", " (keys entries)))] /\
    (forall i,
        In i (availableOperationIds entries) <->
        i <> EmptyString /\
        exists q, In q (operationsOf entries) /\ operationId (snd q) = Some i) /\
    (forall route,
        In route (keys entries) <-> exists item, In (route, item) entries).
Proof.
  intros env id token u raw doc entries Hid Htok Hloc Hnorm Hpaths Hnone.
  rewrite (operation_when_normalized env id token Hid Htok Hloc Hnorm).
  rewrite Hnone, Hpaths.
  split; [reflexivity|]. split; [reflexivity|]. split.
  - apply in_availableOperationIds.
  - intros route. unfold keys. rewrite in_map_iff. split.
    + intros [[r item] [Hr Hin]]. cbn [fst] in Hr. subst r. now exists item.
    + intros [item Hin]. now exists (route, item).
Qed.

Lemma not_found_enumerates_witness :
  content (handleGetApiOperation Examples.env "petstore" "nope") =
  [textBlock (Plain "Error: Operation wasn't found. Available IDs: listPets. Routes: /pets")].
Proof.
  exact (proj1 (proj2 (not_found_enumerates Examples.env "petstore" "nope"
                         (u := "https://specs.example.com/petstore")
                         (raw := {| swagger := None; document := Examples.petStore |})
                         eq_refl eq_refl eq_refl eq_refl eq_refl eq_refl))).
Defined.

(** C4 as stated fails twice: the empty token matches no operation and is
    answered without any enumeration, and an operationId that is the empty
    string is declared but left out of the list. *)
Lemma not_found_without_enumeration :
  (matchOperation Examples.petStore ("/" ++ EmptyString) = None /\
   content (handleGetApiOperation Examples.env "petstore" EmptyString) =
   [textBlock
      (Plain "Error: Both 'id' and 'operationIdOrRoute' parameters are required")] /\
   content (handleGetApiOperation Examples.env "petstore" EmptyString) <>
   [textBlock
      (Plain ("Error: " ++
              notFoundMessage [("/pets", Examples.onlyGet Examples.listPets)]))])
  /\
  (matchOperation Examples.unnamedStore ("/" ++ "zzz") = None /\
   In ("/x", "get", Examples.unnamed)
      (operationsOf [("/x", {| get := Some Examples.unnamed;
                               post := Some Examples.fooNamed;
                               put := None; delete := None; patch := None |})]) /\
   operationId Examples.unnamed = Some EmptyString /\
   ~ In EmptyString
       (availableOperationIds
          [("/x", {| get := Some Examples.unnamed;
                     post := Some Examples.fooNamed;
                     put := None; delete := None; patch := None |})]) /\
   content (handleGetApiOperation Examples.env "unnamed" "zzz") =
   [textBlock (Plain "Error: Operation wasn't found. Available IDs: foo. Routes: /x")]).
Proof.
  split; split; try reflexivity.
  { split; [reflexivity | discriminate]. }
  split; [simpl; tauto|]. split; [reflexivity|]. split; [|reflexivity].
  simpl. intros [H|[]]. discriminate H.
Qed.

(** ** The overview generator *)

Lemma collect_methods :
  forall env hostname doc route item ms init,
    fold_left
      (fun items m =>
         match method_of item m with
         | None => items
         | Some op => push items (makeItem env hostname doc route m op)
         end) ms init =
    (init ++
     map (itemOf env hostname doc)
       (flat_map (fun m => match method_of item m with
                           | Some op => [(route, m, op)]
                           | None => []
                           end) ms))%list.
Proof.
  intros env hostname doc route item ms; induction ms as [|m ms IH]; intros init.
  - simpl. now rewrite app_nil_r.
  - cbn [fold_left flat_map]. rewrite IH.
    destruct (method_of item m) as [op|].
    + unfold push. rewrite <- app_assoc. reflexivity.
    + reflexivity.
Qed.

Lemma collect_entries :
  forall env hostname doc entries init,
    fold_left
      (fun items entry =>
         let '(route, pathItem) := entry in
         fold_left
           (fun items m =>
              match method_of pathItem m with
              | None => items
              | Some op => push items (makeItem env hostname doc route m op)
              end) methods items) entries init =
    (init ++ map (itemOf env hostname doc) (operationsOf entries))%list.
Proof.
  intros env hostname doc entries; induction entries as [|[route item] entries IH];
    intros init.
  - simpl. now rewrite app_nil_r.
  - cbn [fold_left]. rewrite IH, collect_methods.
    unfold operationsOf. cbn [flat_map fst snd]. fold (operationsOf entries).
    unfold operationsOfItem. now rewrite map_app, app_assoc.
Qed.

Lemma collectItems_operations :
  forall env hostname doc entries,
    paths doc = Some entries ->
    collectItems env hostname doc = map (itemOf env hostname doc) (operationsOf entries).
Proof.
  intros env hostname doc entries Hp. unfold collectItems. rewrite Hp.
  apply (collect_entries env hostname doc entries []).
Qed.

(** The count printed by the banner: the lines of the header and of the
    operations, less three. *)
Lemma endpointCount_formula :
  forall env hostname doc entries,
    paths doc = Some entries ->
    hd EmptyString (overviewLines env hostname doc) =
    banner hostname
      (Z.of_nat (List.length (pushInfo env doc [])) +
       Z.of_nat (List.length (operationsOf entries)) - 3)%Z.
Proof.
  intros env hostname doc entries Hp. unfold overviewLines. cbn [hd].
  rewrite length_app, length_map, (collectItems_operations env hostname doc Hp), length_map.
  now rewrite Nat2Z.inj_add.
Qed.

(** With a description the header has three lines and the count is the
    number of operations. *)
Lemma endpointCount_with_description :
  forall env hostname doc entries i d,
    paths doc = Some entries ->
    info doc = Some i -> description i = Some d -> JS.truthy d = true ->
    hd EmptyString (overviewLines env hostname doc) =
    banner hostname (Z.of_nat (List.length (operationsOf entries))).
Proof.
  intros env hostname doc entries i d Hp Hi Hd Ht.
  rewrite (endpointCount_formula env hostname doc Hp).
  unfold pushInfo. rewrite Hi, Hd, Ht. unfold push. cbn [app List.length].
  f_equal. lia.
Qed.

(** Without one it has two and the count is one short. *)
Lemma endpointCount_without_description :
  forall env hostname doc entries i,
    paths doc = Some entries ->
    info doc = Some i -> JS.truthyOpt (description i) = false ->
    hd EmptyString (overviewLines env hostname doc) =
    banner hostname (Z.of_nat (List.length (operationsOf entries)) - 1)%Z.
Proof.
  intros env hostname doc entries i Hp Hi Hd.
  rewrite (endpointCount_formula env hostname doc Hp).
  unfold pushInfo. rewrite Hi.
  assert (Hnone : match description i with
                  | Some d => if JS.truthy d
                              then push (push [] (title i ++ " v" ++ version i ++ " - " ++
                                     getServerOrigin env None (rootServersOf doc))) d
                              else push [] (title i ++ " v" ++ version i ++ " - " ++
                                     getServerOrigin env None (rootServersOf doc))
                  | None => push [] (title i ++ " v" ++ version i ++ " - " ++
                                     getServerOrigin env None (rootServersOf doc))
                  end = push [] (title i ++ " v" ++ version i ++ " - " ++
                                     getServerOrigin env None (rootServersOf doc))).
  { destruct (description i) as [d|]; [|reflexivity].
    simpl in Hd. now rewrite Hd. }
  cbv zeta. rewrite Hnone. unfold push. cbn [app List.length].
  f_equal. lia.
Qed.

(** C5. The generator is a total function and its output always opens with
    the banner and the header, but the count of the banner is wrong as soon
    as the info has no description: the specification without operations
    is said to contain -1 endpoints, the Pet Store scenario with its one
    operation 0 endpoints. *)
Theorem banner_miscounts_endpoints :
  overviewLines Examples.env "empty" Examples.emptyStore =
  ["Below is an overview of the empty openapi in simple language. This API contains -1 endpoints. For more detailed information of an endpoint, visit https://oapis.org/summary/empty/[idOrRoute]";
   EmptyString;
   "Pet Store v1.0 - ";
   EmptyString]
  /\
  overviewLines Examples.env "petstore" Examples.petStore =
  ["Below is an overview of the petstore openapi in simple language. This API contains 0 endpoints. For more detailed information of an endpoint, visit https://oapis.org/summary/petstore/[idOrRoute]";
   EmptyString;
   "Pet Store v1.0 - https://petstore.example.com";
   EmptyString;
   "- listPets GET https://petstore.example.com/pets?limit=integer - List pets ( Spec: https://oapis.org/openapi/petstore/listPets )"]
  /\
  List.length (operationsOf [("/pets", Examples.onlyGet Examples.listPets)]) = 1%nat.
Proof.
  split; [vm_compute; reflexivity|]. split; vm_compute; reflexivity.
Qed.

Lemma truthy_append :
  forall a b, JS.truthy (a ++ b) = JS.truthy a || JS.truthy b.
Proof.
  intros [|c a] b; reflexivity.
Qed.

Lemma truthy_or_empty :
  forall s, (if JS.truthy s then s else EmptyString) = s.
Proof.
  intros [|c r]; reflexivity.
Qed.

Lemma queryPair_truthy :
  forall p, JS.truthy (queryPair p) = true.
Proof.
  intros p. unfold queryPair. rewrite truthy_append.
  destruct (JS.truthy (name p)); reflexivity.
Qed.

Lemma joined_pairs_truthy :
  forall p ps, JS.truthy (JS.join "&" (map queryPair (p :: ps))) = true.
Proof.
  intros p ps. unfold JS.join. cbn [map String.concat].
  destruct (map queryPair ps).
  - apply queryPair_truthy.
  - rewrite truthy_append, queryPair_truthy. reflexivity.
Qed.

Lemma item_operationId :
  forall env hostname doc q,
    Item.operationId (itemOf env hostname doc q) = identifierPart (snd q).
Proof.
  intros env hostname doc [[route m] op]. unfold itemOf, makeItem, identifierPart.
  cbn [Item.operationId fst snd].
  destruct (operationId op) as [i|]; [apply truthy_or_empty | reflexivity].
Qed.

Lemma item_pathPart :
  forall env hostname doc q,
    Item.pathPart (itemOf env hostname doc q) = shortForm env doc q.
Proof.
  intros env hostname doc [[route m] op]. unfold itemOf, makeItem, shortForm.
  cbn [Item.pathPart fst snd].
  do 4 f_equal.
  destruct (parameters op) as [ps|]; [|reflexivity].
  destruct (filter isQuery ps) as [|p l].
  - reflexivity.
  - now rewrite joined_pairs_truthy.
Qed.

Lemma item_summaryPart :
  forall env hostname doc q,
    Item.summaryPart (itemOf env hostname doc q) = summarySegment (snd q).
Proof.
  intros env hostname doc [[route m] op]. reflexivity.
Qed.

Lemma item_openapiUrl :
  forall env hostname doc q,
    Item.openapiUrl (itemOf env hostname doc q) = pointerUrl hostname q.
Proof.
  intros env hostname doc [[route m] op]. unfold itemOf, makeItem, pointerUrl.
  cbn [Item.openapiUrl fst snd].
  pose proof (item_operationId env hostname doc (route, m, op)) as Hid.
  unfold itemOf, makeItem in Hid. cbn [Item.operationId fst snd] in Hid.
  now rewrite Hid.
Qed.

Lemma itemLine_operationLine :
  forall env hostname doc compact q,
    itemLine compact (itemOf env hostname doc q) =
    operationLine env hostname doc compact q.
Proof.
  intros env hostname doc compact q. unfold itemLine, operationLine.
  rewrite item_operationId, item_pathPart, item_summaryPart, item_openapiUrl.
  do 2 f_equal. destruct compact; reflexivity.
Qed.

(** The lines of the generator against [operationLine]. *)
Lemma overviewLines_operationLine :
  forall (env : Capabilities) (hostname : string) (doc : OpenapiDocument)
         (entries : list (string * PathItem)),
    paths doc = Some entries ->
    (exists count,
        overviewLines env hostname doc =
        (banner hostname count :: EmptyString :: pushInfo env doc [] ++
         map (operationLine env hostname doc (itemSetIsLong env hostname doc))
             (operationsOf entries))%list)
    /\
    (forall q,
        operationLine env hostname doc false q =
        "- " ++ identifierPart (snd q) ++ " " ++ shortForm env doc q ++
        summarySegment (snd q) ++ " ( Spec: " ++ pointerUrl hostname q ++ " )")
    /\
    (forall q,
        operationLine env hostname doc true q =
        "- " ++ identifierPart (snd q) ++ " " ++
        summarySegment (snd q) ++ " ( Spec: " ++ pointerUrl hostname q ++ " )")
    /\
    (itemSetIsLong env hostname doc = true <->
     (50000 < JS.length
                (stringifyItems (map (itemOf env hostname doc) (operationsOf entries))))%Z).
Proof.
  intros env hostname doc entries Hp.
  split; [|split; [|split]].
  - eexists. unfold overviewLines. do 2 f_equal. f_equal.
    fold (itemSetIsLong env hostname doc).
    rewrite (collectItems_operations env hostname doc Hp), map_map.
    apply map_ext. intros q. apply itemLine_operationLine.
  - intros q. reflexivity.
  - intros q. reflexivity.
  - unfold itemSetIsLong. rewrite (collectItems_operations env hostname doc Hp).
    apply Z.ltb_lt.
Qed.


(** The two forms of a line on the example with a summary of 50,000 code
    units: every line of that overview is compact. *)
Lemma compact_lines_example :
  nth 5 (overviewLines Examples.env "wordy" Examples.wordyStore) EmptyString =
  "- listPets  - List pets ( Spec: https://oapis.org/openapi/wordy/listPets )"
  /\
  nth 4 (overviewLines Examples.env "petstore" Examples.petStore) EmptyString =
  "- listPets GET https://petstore.example.com/pets?limit=integer - List pets ( Spec: https://oapis.org/openapi/petstore/listPets )".
Proof.
  split; vm_compute; reflexivity.
Qed.

(** ** The text of the overview, line by line *)

Lemma documentOperations_relabel :
  forall entries,
    documentOperations entries =
    map (fun q => (fst (fst q), JS.toUpperCase (snd (fst q)), snd q))
        (operationsOf entries).
Proof.
  intros entries; induction entries as [|[route item] entries IH].
  - reflexivity.
  - unfold documentOperations, operationsOf. cbn [flat_map fst snd].
    fold (documentOperations entries). fold (operationsOf entries).
    rewrite map_app, IH. f_equal.
    destruct item as [[g|] [po|] [pu|] [d|] [pa|]]; reflexivity.
Qed.

Lemma specifiedOrigin_getServerOrigin :
  forall env doc op,
    getServerOrigin env (Some op) (rootServersOf doc) = specifiedOrigin env doc op.
Proof.
  intros env doc op. unfold getServerOrigin, specifiedOrigin, rootServersOf, originOfServer.
  destruct (op_servers op) as [[|s l]|]; try reflexivity.
Qed.

Lemma specifiedPair_queryPair :
  forall p, queryPair p = specifiedPair p.
Proof.
  intros p. unfold queryPair, specifiedPair, specifiedType.
  destruct (schema p) as [sch|]; [|reflexivity].
  destruct (schema_type sch); reflexivity.
Qed.

Lemma queryParameters_filter :
  forall op,
    match parameters op with
    | Some ps => filter isQuery ps
    | None => []
    end = queryParameters op.
Proof.
  intros op. unfold queryParameters.
  destruct (parameters op) as [ps|]; [|reflexivity].
  apply filter_ext. intros p. unfold isQuery. destruct (in_ p); reflexivity.
Qed.

Lemma specifiedShortForm_shortForm :
  forall env doc q,
    shortForm env doc q =
    specifiedShortForm env doc (fst (fst q), JS.toUpperCase (snd (fst q)), snd q).
Proof.
  intros env doc [[route m] op]. unfold shortForm, specifiedShortForm, specifiedQuery.
  cbn [fst snd]. rewrite queryParameters_filter, specifiedOrigin_getServerOrigin.
  do 4 f_equal.
  destruct (queryParameters op) as [|p l]; [reflexivity|].
  unfold JS.join. do 2 f_equal. apply map_ext, specifiedPair_queryPair.
Qed.

Lemma specifiedSummary_summarySegment :
  forall op, summarySegment op = specifiedSummary op.
Proof.
  intros op. unfold summarySegment, specifiedSummary.
  destruct (summary op) as [[|c r]|]; reflexivity.
Qed.

Lemma specifiedPointer_pointerUrl :
  forall hostname q,
    pointerUrl hostname q = specifiedPointer hostname (fst (fst q)) (snd q).
Proof.
  intros hostname [[route m] op]. unfold pointerUrl, specifiedPointer.
  cbn [fst snd]. unfold identifierPart, specifiedIdentifier.
  destruct (operationId op) as [[|c r]|]; reflexivity.
Qed.

Lemma specifiedLine_operationLine :
  forall env hostname doc compact q,
    operationLine env hostname doc compact q =
    specifiedLine env hostname doc compact
      (fst (fst q), JS.toUpperCase (snd (fst q)), snd q).
Proof.
  intros env hostname doc compact q. unfold operationLine, specifiedLine.
  cbn [fst snd].
  rewrite specifiedShortForm_shortForm, specifiedSummary_summarySegment,
    specifiedPointer_pointerUrl.
  reflexivity.
Qed.

Lemma specifiedItem_itemOf :
  forall env hostname doc q,
    itemOf env hostname doc q =
    specifiedItem env hostname doc
      (fst (fst q), JS.toUpperCase (snd (fst q)), snd q).
Proof.
  intros env hostname doc q.
  pose proof (item_operationId env hostname doc q) as H1.
  pose proof (item_pathPart env hostname doc q) as H2.
  pose proof (item_summaryPart env hostname doc q) as H3.
  pose proof (item_openapiUrl env hostname doc q) as H4.
  destruct (itemOf env hostname doc q) as [a b c d].
  cbn [Item.operationId Item.pathPart Item.summaryPart Item.openapiUrl] in *.
  subst a b c d. unfold specifiedItem. cbn [fst snd].
  now rewrite specifiedShortForm_shortForm, specifiedSummary_summarySegment,
    specifiedPointer_pointerUrl.
Qed.

Lemma specifiedCompact_itemSetIsLong :
  forall env hostname doc entries,
    paths doc = Some entries ->
    itemSetIsLong env hostname doc = specifiedCompact env hostname doc entries.
Proof.
  intros env hostname doc entries Hp. unfold itemSetIsLong, specifiedCompact.
  rewrite (collectItems_operations env hostname doc Hp), documentOperations_relabel.
  rewrite map_map. unfold JS.length. do 4 f_equal.
  apply map_ext, specifiedItem_itemOf.
Qed.

Lemma specifiedHeader_pushInfo :
  forall env doc, pushInfo env doc [] = specifiedHeader env doc.
Proof.
  intros env doc. unfold pushInfo, specifiedHeader, push, getServerOrigin,
    rootServersOf, originOfServer.
  destruct (info doc) as [i|]; [|reflexivity].
  destruct (servers doc) as [[|s l]|];
    destruct (description i) as [[|c r]|]; reflexivity.
Qed.

(** C9. The overview is the banner, an empty line, the header and then one
    line per operation of the document, path by path and within a path in
    the order get, post, put, patch, delete, all joined by line feeds.  A
    line is made of the operationId if there is one, the short form, that
    is the method in upper case, a space, the server origin and the route
    and, when the operation has query parameters, a question mark and one
    name=type pair per query parameter joined by ampersands, then the
    summary if there is one and the pointer to the detail of the operation.
    When the JSON text of the item set exceeds 50,000 code units the short
    form is left out of every line and the other parts stay. *)
Theorem overview_operation_lines :
  forall (env : Capabilities) (hostname : string) (doc : OpenapiDocument)
         (entries : list (string * PathItem)),
    paths doc = Some entries ->
    generateOverview env hostname doc =
    String.concat (String "010"%char EmptyString)
      (specifiedBanner hostname
         (Z.of_nat (List.length (specifiedHeader env doc)) +
          Z.of_nat (List.length (documentOperations entries)) - 3)
       :: EmptyString ::
       specifiedHeader env doc ++
       map (specifiedLine env hostname doc
              (specifiedCompact env hostname doc entries))
           (documentOperations entries))%list.
Proof.
  intros env hostname doc entries Hp.
  unfold generateOverview, overviewLines, JS.join, LF.
  change (50000 <? JS.length (stringifyItems (collectItems env hostname doc)))%Z
    with (itemSetIsLong env hostname doc).
  rewrite (specifiedCompact_itemSetIsLong env hostname doc Hp).
  rewrite (collectItems_operations env hostname doc Hp), specifiedHeader_pushInfo.
  rewrite documentOperations_relabel, !map_map, length_app, !length_map.
  rewrite Nat2Z.inj_add.
  f_equal. f_equal. f_equal. f_equal.
  apply map_ext. intros q.
  rewrite itemLine_operationLine. apply specifiedLine_operationLine.
Qed.

Lemma overview_operation_lines_witness :
  generateOverview Examples.env "petstore" Examples.petStore =
  "Below is an overview of the petstore openapi in simple language. This API contains 0 endpoints. For more detailed information of an endpoint, visit https://oapis.org/summary/petstore/[idOrRoute]" ++
  LF ++ LF ++
  "Pet Store v1.0 - https://petstore.example.com" ++ LF ++ LF ++
  "- listPets GET https://petstore.example.com/pets?limit=integer - List pets ( Spec: https://oapis.org/openapi/petstore/listPets )"
  /\
  generateOverview Examples.env "wordy" Examples.wordyStore =
  "Below is an overview of the wordy openapi in simple language. This API contains 1 endpoints. For more detailed information of an endpoint, visit https://oapis.org/summary/wordy/[idOrRoute]" ++
  LF ++ LF ++
  "Pet Store v1.0 - https://petstore.example.com" ++ LF ++ LF ++
  "- wordy  - " ++ Examples.filler 50000 ++
  " ( Spec: https://oapis.org/openapi/wordy/wordy )" ++ LF ++
  "- listPets  - List pets ( Spec: https://oapis.org/openapi/wordy/listPets )".
Proof.
  split.
  - rewrite (overview_operation_lines Examples.env "petstore" Examples.petStore
               eq_refl).
    vm_compute. reflexivity.
  - rewrite (overview_operation_lines Examples.env "wordy" Examples.wordyStore
               eq_refl).
    apply String.eqb_eq. vm_compute. reflexivity.
Defined.

(** ** Operation detail *)

Lemma lookup_in :
  forall (A : Type) (key : string) (entries : list (string * A)) (v : A),
    lookup key entries = Some v -> In (key, v) entries.
Proof.
  intros A key entries v; induction entries as [|[k w] entries IH]; simpl.
  - discriminate.
  - destruct (String.eqb k key) eqn:Hk.
    + intros H; injection H as ->. apply String.eqb_eq in Hk as ->. now left.
    + intros H. right. now apply IH.
Qed.

(** What the matcher returns is an operation of the document, under one of
    the five methods, whose name it carries in upper case. *)
Lemma matchOperation_sound :
  forall doc pathname op,
    matchOperation doc pathname = Some op ->
    exists entries m item,
      paths doc = Some entries /\ In m methods /\
      method op = JS.toUpperCase m /\
      In (originalPath op, item) entries /\
      method_of item m = Some (operation op).
Proof.
  intros doc pathname op. unfold matchOperation.
  destruct (paths doc) as [entries|]; [|discriminate].
  destruct (directMatch entries pathname) as [o|] eqn:Hd.
  - intros H; injection H as <-. unfold directMatch in Hd.
    destruct (lookup pathname entries) as [item|] eqn:Hl; [|discriminate Hd].
    exists entries, "get", item. cbn [method originalPath operation].
    repeat split; try reflexivity.
    + simpl; tauto.
    + now apply lookup_in.
    + exact Hd.
  - cbv zeta. rewrite matchByOperationId_first.
    destruct (find (identifiedBy (JS.slice1 pathname)) (operationsOf entries))
      as [[[route m] o]|] eqn:Hf; [|discriminate].
    intros H; injection H as <-. apply find_some in Hf as [Hin _].
    apply in_operationsOf in Hin as [Hm [item [Hin Hop]]].
    exists entries, m, item. cbn [matchedOf method originalPath operation fst snd].
    repeat split; assumption.
Qed.

Lemma lower_of_upper_method :
  forall m, In m methods -> JS.toLowerCase (JS.toUpperCase m) = m.
Proof.
  intros m Hm. simpl in Hm.
  destruct Hm as [<-|[<-|[<-|[<-|[<-|[]]]]]]; reflexivity.
Qed.

Lemma pathItemOf_single :
  forall m o m',
    In m methods -> In m' methods ->
    method_of (pathItemOf m o) m' = if String.eqb m' m then Some o else None.
Proof.
  intros m o m' Hm Hm'. simpl in Hm, Hm'.
  destruct Hm as [<-|[<-|[<-|[<-|[<-|[]]]]]];
    destruct Hm' as [<-|[<-|[<-|[<-|[<-|[]]]]]]; reflexivity.
Qed.

(** C7. When the dereferencing capability fails on the sub-document of a
    matched operation, [handleGetApiOperation] answers successfully with one
    text block that serialises that sub-document as it is: every field of
    the document but its paths is kept, and the paths hold the matched
    route alone and under it the matched method alone, with the operation
    as the document declares it. *)
Theorem dereference_failure_degrades :
  forall (env : Capabilities) (id token u : string) (raw : RawDocument)
         (doc : OpenapiDocument) (op : MatchedOperation),
    JS.truthy id = true ->
    JS.truthy token = true ->
    locate env id = Return (u, raw) ->
    normalize env u raw = Return doc ->
    matchOperation doc ("/" ++ token) = Some op ->
    dereferenceSync env (subsetOf doc op) = None ->
    exists entries item single,
      paths doc = Some entries /\
      In (originalPath op, item) entries /\
      content (handleGetApiOperation env id token) =
      [{| type_ := "text";
          text := Dump {| tags := tags doc;
                          components := components doc;
                          webhooks := webhooks doc;
                          openapi := openapi doc;
                          servers := servers doc;
                          info := info doc;
                          paths := Some [(originalPath op, single)] |} |}] /\
      metadata (handleGetApiOperation env id token) = None /\
      isError (handleGetApiOperation env id token) = Some false /\
      ((method op = "GET" /\ get item = Some (operation op) /\
        single = {| get := Some (operation op); post := None; put := None;
                    delete := None; patch := None |}) \/
       (method op = "POST" /\ post item = Some (operation op) /\
        single = {| get := None; post := Some (operation op); put := None;
                    delete := None; patch := None |}) \/
       (method op = "PUT" /\ put item = Some (operation op) /\
        single = {| get := None; post := None; put := Some (operation op);
                    delete := None; patch := None |}) \/
       (method op = "PATCH" /\ patch item = Some (operation op) /\
        single = {| get := None; post := None; put := None;
                    delete := None; patch := Some (operation op) |}) \/
       (method op = "DELETE" /\ delete item = Some (operation op) /\
        single = {| get := None; post := None; put := None;
                    delete := Some (operation op); patch := None |})).
Proof.
  intros env id token u raw doc op Hid Htok Hloc Hnorm Hmatch Hderef.
  rewrite (operation_when_normalized env id token Hid Htok Hloc Hnorm), Hmatch.
  unfold resolveDetail. rewrite Hderef.
  destruct (matchOperation_sound _ _ Hmatch) as [entries [m [item [Hp [Hm [Hu [Hin Hop]]]]]]].
  exists entries, item, (pathItemOf (JS.toLowerCase (method op)) (operation op)).
  split; [exact Hp|]. split; [exact Hin|].
  split; [reflexivity|]. split; [reflexivity|]. split; [reflexivity|].
  rewrite Hu. simpl in Hm.
  destruct Hm as [<-|[<-|[<-|[<-|[<-|[]]]]]].
  - left. repeat split. exact Hop.
  - right; left. repeat split. exact Hop.
  - right; right; left. repeat split. exact Hop.
  - right; right; right; left. repeat split. exact Hop.
  - right; right; right; right. repeat split. exact Hop.
Qed.

Lemma dereference_failure_degrades_witness :
  content (handleGetApiOperation Examples.envNoDereference "petstore" "listPets") =
  [{| type_ := "text";
      text :=
        Dump {| tags := None;
                components :=
                  Some (JObj [("schemas", JObj [("Pet", JObj [("type", JStr "object")])])]);
                webhooks := None;
                openapi := Some "3.0.0";
                servers :=
                  Some [{| url := "https://petstore.example.com/v1";
                           server_description := None |}];
                info := Some {| title := "Pet Store"; version := "1.0";
                                description := None |};
                paths :=
                  Some [("/pets",
                         {| get := Some Examples.listPets; post := None; put := None;
                            delete := None; patch := None |})] |} |}]
  /\
  isError (handleGetApiOperation Examples.envNoDereference "petstore" "listPets")
  = Some false.
Proof.
  destruct (dereference_failure_degrades Examples.envNoDereference
              "petstore" "listPets"
              (u := "https://specs.example.com/petstore")
              (raw := {| swagger := None; document := Examples.petStore |})
              (op := {| operation := Examples.listPets; originalPath := "/pets";
                        method := "GET" |})
              eq_refl eq_refl eq_refl eq_refl eq_refl eq_refl)
    as [entries [item [single [_ [_ [Hc [_ [He Hcases]]]]]]]].
  split; [|exact He]. rewrite Hc.
  cbn [method operation originalPath] in Hcases.
  destruct Hcases as [[_ [_ ->]]|[[H _]|[[H _]|[[H _]|[H _]]]]];
    [reflexivity | discriminate H | discriminate H | discriminate H | discriminate H].
Defined.

(** C6, amended. When the dereferencing capability succeeds on the
    sub-document of a matched operation, the text returned is the
    serialisation of its answer without the sections tags, webhooks and
    components, every other part, the paths with whatever was inlined in
    them first, being as the capability returned it.  When it fails the
    sub-document is serialised with the three sections of the document
    still in it. *)
Theorem detail_sections :
  forall (env : Capabilities) (id token u : string) (raw : RawDocument)
         (doc : OpenapiDocument) (op : MatchedOperation),
    JS.truthy id = true ->
    JS.truthy token = true ->
    locate env id = Return (u, raw) ->
    normalize env u raw = Return doc ->
    matchOperation doc ("/" ++ token) = Some op ->
    (forall d,
        dereferenceSync env (subsetOf doc op) = Some d ->
        exists shown,
          handleGetApiOperation env id token = succeeded (Dump shown) /\
          tags shown = None /\ webhooks shown = None /\ components shown = None /\
          paths shown = paths d /\ openapi shown = openapi d /\
          servers shown = servers d /\ info shown = info d)
    /\
    (dereferenceSync env (subsetOf doc op) = None ->
     exists shown,
       handleGetApiOperation env id token = succeeded (Dump shown) /\
       tags shown = tags doc /\ webhooks shown = webhooks doc /\
       components shown = components doc /\
       paths shown = paths (subsetOf doc op)).
Proof.
  intros env id token u raw doc op Hid Htok Hloc Hnorm Hmatch.
  rewrite (operation_when_normalized env id token Hid Htok Hloc Hnorm), Hmatch.
  unfold resolveDetail. split.
  - intros d Hd. rewrite Hd. exists (withoutSections d). repeat split.
  - intros Hd. rewrite Hd. exists (subsetOf doc op). repeat split.
Qed.

Lemma detail_sections_witness :
  exists shown,
    handleGetApiOperation Examples.env "petstore" "listPets" = succeeded (Dump shown) /\
    components shown = None /\
    paths shown =
    Some [("/pets",
           Examples.onlyGet
             {| operationId := Some "listPets"; op_servers := None;
                summary := Some "List pets"; op_description := None;
                parameters := Some [Examples.limit]; requestBody := None;
                responses :=
                  [("200", JObj [("schema", JObj [("type", JStr "object")])])] |})].
Proof.
  destruct (proj1 (detail_sections Examples.env "petstore" "listPets"
                     (u := "https://specs.example.com/petstore")
                     (raw := {| swagger := None; document := Examples.petStore |})
                     eq_refl eq_refl eq_refl eq_refl eq_refl) _ eq_refl)
    as [shown [Hshown [_ [_ [Hc [Hp _]]]]]].
  exists shown. split; [exact Hshown|]. split; [exact Hc|].
  rewrite Hp. reflexivity.
Defined.

(** C6 as stated fails: when dereferencing fails the text still has the
    components section of the document and the reference to it. *)
Lemma detail_keeps_components :
  matchOperation Examples.petStore ("/" ++ "listPets") =
  Some {| operation := Examples.listPets; originalPath := "/pets"; method := "GET" |}
  /\
  (exists shown,
      content (handleGetApiOperation Examples.envNoDereference "petstore" "listPets") =
      [textBlock (Dump shown)] /\
      components shown = Some Examples.petSchemas /\
      paths shown = Some [("/pets", Examples.onlyGet Examples.listPets)] /\
      responses Examples.listPets =
      [("200", JObj [("schema", JObj [("$ref", JStr "#/components/schemas/Pet")])])])
  /\
  ~ (exists shown,
        content (handleGetApiOperation Examples.envNoDereference "petstore" "listPets") =
        [textBlock (Dump shown)] /\
        components shown = None).
Proof.
  split; [reflexivity|]. split.
  - eexists. split; [reflexivity|]. repeat split.
  - intros [shown [Hs Hc]]. vm_compute in Hs. injection Hs as <-. discriminate Hc.
Qed.

(** ** Server origin *)

(** The first segment of a split on the separator is the longest prefix
    free of it. *)
Lemma split_first_segment :
  forall (sep : ascii) (s : string),
    exists rest,
      s = hd EmptyString (JS.split sep s) ++ rest /\
      free sep (hd EmptyString (JS.split sep s)) = true /\
      (rest = EmptyString \/ exists r, rest = String sep r).
Proof.
  intros sep s; induction s as [|c s IH].
  - exists EmptyString. simpl. repeat split. now left.
  - cbn [JS.split]. destruct (Ascii.eqb c sep) eqn:Hc.
    + apply Ascii.eqb_eq in Hc as ->. exists (String sep s). cbn [hd].
      repeat split. right. now exists s.
    + destruct IH as [rest [Hs [Hfree Hrest]]].
      destruct (JS.split sep s) as [|h t]; cbn [hd] in *.
      * exists rest. cbn [String.append free]. rewrite Hc. cbn [negb andb].
        repeat split; [now f_equal | exact Hrest].
      * exists rest. cbn [String.append free]. rewrite Hc, Hfree. cbn [negb andb].
        repeat split; [now f_equal | exact Hrest].
Qed.

(** C8, amended. The origin is the one of the first server of the list
    the operation declares, when it has a servers property, and of the first
    server of the root list otherwise; the origin of a server is the one
    the URL parser gives and, when parsing fails, the first segment of its
    url split at the separator; the origin is empty when the list so chosen
    is empty, and a servers property of the operation that is an empty list
    is such a choice, whatever the root declares. *)
Theorem server_origin_chain :
  forall (env : Capabilities) (operation : option Operation)
         (rootServers : list Server),
    (forall op s rest,
        operation = Some op -> op_servers op = Some (s :: rest) ->
        getServerOrigin env operation rootServers = originOfServer env s)
    /\
    (forall s rest,
        (operation = None \/ exists op, operation = Some op /\ op_servers op = None) ->
        rootServers = s :: rest ->
        getServerOrigin env operation rootServers = originOfServer env s)
    /\
    (forall s origin,
        urlOrigin env (url s) = Some origin -> originOfServer env s = origin)
    /\
    (forall s,
        urlOrigin env (url s) = None ->
        originOfServer env s = hd EmptyString (JS.split "/" (url s)) /\
        exists rest,
          url s = originOfServer env s ++ rest /\
          free "/" (originOfServer env s) = true /\
          (rest = EmptyString \/ exists r, rest = String "/" r))
    /\
    ((operation = None \/ exists op, operation = Some op /\ op_servers op = None) ->
     rootServers = [] ->
     getServerOrigin env operation rootServers = EmptyString)
    /\
    (forall op,
        operation = Some op -> op_servers op = Some [] ->
        getServerOrigin env operation rootServers = EmptyString).
Proof.
  intros env operation rootServers.
  split; [|split; [|split; [|split; [|split]]]].
  - intros op s rest -> Hs. unfold getServerOrigin. now rewrite Hs.
  - intros s rest [->|[op [-> Hs]]] ->; unfold getServerOrigin;
      [|rewrite Hs]; reflexivity.
  - intros s origin H. unfold originOfServer. now rewrite H.
  - intros s H. unfold originOfServer. rewrite H. split; [reflexivity|].
    apply split_first_segment.
  - intros [->|[op [-> Hs]]] ->; unfold getServerOrigin; [|rewrite Hs]; reflexivity.
  - intros op -> Hs. unfold getServerOrigin. now rewrite Hs.
Qed.

Lemma server_origin_chain_witness :
  getServerOrigin Examples.env (Some Examples.ownServer) Examples.petServers =
  "api.example.com"
  /\
  getServerOrigin Examples.env (Some Examples.listPets) Examples.petServers =
  "https://petstore.example.com".
Proof.
  split.
  - rewrite (proj1 (server_origin_chain Examples.env (Some Examples.ownServer)
                      Examples.petServers)
               Examples.ownServer Examples.relativeServer [] eq_refl eq_refl).
    reflexivity.
  - rewrite (proj1 (proj2 (server_origin_chain Examples.env (Some Examples.listPets)
                             Examples.petServers))
               {| url := "https://petstore.example.com/v1"; server_description := None |}
               []
               (or_intror (ex_intro _ Examples.listPets (conj eq_refl eq_refl)))
               eq_refl).
    reflexivity.
Defined.

(** C8 as stated fails: an operation that declares an empty list of servers
    gets the empty origin, not the one of the root server. *)
Lemma empty_own_servers_hide_root :
  op_servers Examples.noOwnServers = Some [] /\
  getServerOrigin Examples.env (Some Examples.noOwnServers) Examples.petServers
  = EmptyString /\
  originOfServer Examples.env
    {| url := "https://petstore.example.com/v1"; server_description := None |}
  = "https://petstore.example.com" /\
  getServerOrigin Examples.env (Some Examples.noOwnServers) Examples.petServers <>
  originOfServer Examples.env
    {| url := "https://petstore.example.com/v1"; server_description := None |}.
Proof.
  repeat split. discriminate.
Qed.

(** ** The separator the handler prepends *)

(** C10, amended. For a token that is not empty the handler matches the
    token with exactly one separator before it.  A token that is a route
    key less its leading separator is matched directly with the GET
    operation of that route when it has one.  A token that itself begins
    with the separator can be matched directly only with a route key that
    begins with two separators, hence never in a document without such a
    key; when the direct match fails it is the token as given, its leading
    separator included, that is compared with the operationIds. *)
Theorem handler_prepends_separator :
  forall (env : Capabilities) (id token u : string) (raw : RawDocument)
         (doc : OpenapiDocument) (entries : list (string * PathItem)),
    JS.truthy id = true ->
    JS.truthy token = true ->
    locate env id = Return (u, raw) ->
    normalize env u raw = Return doc ->
    paths doc = Some entries ->
    handleGetApiOperation env id token =
    match matchOperation doc ("/" ++ token) with
    | Some op => resolveDetail env (subsetOf doc op)
    | None => caught (notFoundMessage entries)
    end
    /\
    (forall item op,
        lookup ("/" ++ token) entries = Some item -> get item = Some op ->
        matchOperation doc ("/" ++ token) =
        Some {| operation := op; originalPath := "/" ++ token; method := "GET" |})
    /\
    (forall rest op,
        token = "/" ++ rest ->
        directMatch entries ("/" ++ token) = Some op ->
        exists item, In ("//" ++ rest, item) entries /\ get item = Some op)
    /\
    (JS.startsWith "/" token = true ->
     (forall route item, In (route, item) entries -> JS.startsWith "//" route = false) ->
     directMatch entries ("/" ++ token) = None)
    /\
    (directMatch entries ("/" ++ token) = None ->
     matchOperation doc ("/" ++ token) =
     option_map matchedOf (find (identifiedBy token) (operationsOf entries))).
Proof.
  intros env id token u raw doc entries Hid Htok Hloc Hnorm Hp.
  assert (Hitem : forall op, directMatch entries ("/" ++ token) = Some op ->
                             exists item, In ("/" ++ token, item) entries /\
                                          get item = Some op).
  { intros op Hd. unfold directMatch in Hd.
    destruct (lookup ("/" ++ token) entries) as [item|] eqn:Hl; [|discriminate Hd].
    exists item. split; [now apply lookup_in | exact Hd]. }
  split; [|split; [|split; [|split]]].
  - rewrite (operation_when_normalized env id token Hid Htok Hloc Hnorm), Hp.
    reflexivity.
  - intros item op Hl Hg. unfold matchOperation, directMatch.
    now rewrite Hp, Hl, Hg.
  - intros rest op -> Hd. exact (Hitem op Hd).
  - intros Hs Hkeys.
    destruct (directMatch entries ("/" ++ token)) as [op|] eqn:Hd; [|reflexivity].
    destruct (Hitem op eq_refl) as [item [Hin _]].
    specialize (Hkeys _ _ Hin).
    destruct token as [|c r]; [discriminate Htok|].
    cbn in Hs, Hkeys. rewrite Hkeys in Hs. discriminate Hs.
  - intros Hd. unfold matchOperation. rewrite Hp, Hd. cbv zeta.
    change (JS.slice1 ("/" ++ token)) with token.
    apply matchByOperationId_first.
Qed.

Lemma handler_prepends_separator_witness :
  matchOperation Examples.petStore ("/" ++ "pets") =
  Some {| operation := Examples.listPets; originalPath := "/pets"; method := "GET" |}
  /\
  directMatch [("/pets", Examples.onlyGet Examples.listPets)] ("/" ++ "/pets") = None.
Proof.
  pose proof (handler_prepends_separator Examples.env "petstore" "pets"
                (u := "https://specs.example.com/petstore")
                (raw := {| swagger := None; document := Examples.petStore |})
                eq_refl eq_refl eq_refl eq_refl eq_refl) as Hpets.
  pose proof (handler_prepends_separator Examples.env "petstore" "/pets"
                (u := "https://specs.example.com/petstore")
                (raw := {| swagger := None; document := Examples.petStore |})
                eq_refl eq_refl eq_refl eq_refl eq_refl) as Hslash.
  split.
  - apply (proj1 (proj2 Hpets) (Examples.onlyGet Examples.listPets)); reflexivity.
  - apply (proj1 (proj2 (proj2 (proj2 Hslash)))); [reflexivity|].
    intros route item [H|[]]. injection H as <- _. reflexivity.
Defined.

(** C10 as stated fails twice: a token that begins with the separator is
    matched directly with a route key that begins with two, and the route
    key that is the lone separator cannot be reached, its token being empty
    and refused before any matching. *)
Lemma separator_token_matched_directly :
  (JS.startsWith "/" "/pets" = true /\
   directMatch [("//pets", Examples.onlyGet Examples.listPets);
                ("/", Examples.onlyGet Examples.fooGet)] ("/" ++ "/pets")
   = Some Examples.listPets /\
   directMatch [("//pets", Examples.onlyGet Examples.listPets);
                ("/", Examples.onlyGet Examples.fooGet)] ("/" ++ "/pets")
   <> None /\
   matchOperation Examples.slashStore ("/" ++ "/pets") =
   Some {| operation := Examples.listPets; originalPath := "//pets"; method := "GET" |})
  /\
  (JS.slice1 "/" = EmptyString /\
   matchOperation Examples.slashStore ("/" ++ EmptyString) =
   Some {| operation := Examples.fooGet; originalPath := "/"; method := "GET" |} /\
   handleGetApiOperation Examples.env "slash" EmptyString =
   {| content :=
        [textBlock
           (Plain "Error: Both 'id' and 'operationIdOrRoute' parameters are required")];
      metadata := None;
      isError := Some true |}).
Proof.
  repeat split. discriminate.
Qed.

(** * Further properties *)

(** ** What the matcher returns, and when it returns nothing *)

Lemma matchOperation_cases :
  forall doc pathname matched,
    matchOperation doc pathname = Some matched ->
    exists entries m item,
      paths doc = Some entries /\ In m methods /\
      matched = {| operation := operation matched;
                   originalPath := originalPath matched;
                   method := JS.toUpperCase m |} /\
      In (originalPath matched, item) entries /\
      method_of item m = Some (operation matched) /\
      ((originalPath matched = pathname /\ m = "get") \/
       (directMatch entries pathname = None /\
        operationId (operation matched) = Some (JS.slice1 pathname))).
Proof.
  intros doc pathname matched. unfold matchOperation.
  destruct (paths doc) as [entries|]; [|discriminate].
  destruct (directMatch entries pathname) as [o|] eqn:Hd.
  - intros H; injection H as <-. unfold directMatch in Hd.
    destruct (lookup pathname entries) as [item|] eqn:Hl; [|discriminate Hd].
    exists entries, "get", item. cbn [method originalPath operation].
    repeat split.
    + simpl; tauto.
    + now apply lookup_in.
    + exact Hd.
    + now left.
  - cbv zeta. rewrite matchByOperationId_first.
    destruct (find (identifiedBy (JS.slice1 pathname)) (operationsOf entries))
      as [[[route m] o]|] eqn:Hf; [|discriminate].
    intros H; injection H as <-. apply find_some in Hf as [Hin Hid].
    apply in_operationsOf in Hin as [Hm [item [Hin Hop]]].
    exists entries, m, item. cbn [matchedOf method originalPath operation fst snd].
    repeat split; try assumption.
    right. split; [exact Hd|].
    unfold identifiedBy in Hid. cbn [snd] in Hid.
    destruct (operationId o) as [j|]; [|discriminate Hid].
    apply String.eqb_eq in Hid. now subst j.
Qed.

Lemma identifiedBy_iff :
  forall i q, identifiedBy i q = true <-> operationId (snd q) = Some i.
Proof.
  intros i q. unfold identifiedBy. destruct (operationId (snd q)) as [j|].
  - rewrite String.eqb_eq. split; [now intros -> | now intros [= ->]].
  - split; discriminate.
Qed.

Lemma matchOperation_some_iff :
  forall doc entries pathname,
    paths doc = Some entries ->
    (matchOperation doc pathname <> None <->
     directMatch entries pathname <> None \/
     exists q, In q (operationsOf entries) /\
               operationId (snd q) = Some (JS.slice1 pathname)).
Proof.
  intros doc entries pathname Hp. unfold matchOperation. rewrite Hp.
  destruct (directMatch entries pathname) as [o|] eqn:Hd.
  - split; [intros _; left; discriminate | discriminate].
  - cbv zeta. rewrite matchByOperationId_first.
    destruct (find (identifiedBy (JS.slice1 pathname)) (operationsOf entries))
      as [q|] eqn:Hf.
    + split; [|discriminate]. intros _. right. exists q.
      apply find_some in Hf as [Hin Hid]. split; [exact Hin|].
      now apply identifiedBy_iff.
    + split; [intros H; now contradiction H|].
      intros [H|[q [Hin Hid]]]; [now contradiction H|].
      apply identifiedBy_iff in Hid.
      rewrite (find_none _ _ Hf q Hin) in Hid. discriminate Hid.
Qed.

(** X1. Whatever the matcher returns is an operation the document declares
    at the returned route under one of the five methods, named in upper case
    in the result; it is the GET operation of the route that is the token,
    or else no such GET operation exists and its operationId is the token
    without its first code unit. *)
Theorem matchOperation_returns_declared :
  forall (doc : OpenapiDocument) (pathname : string) (matched : MatchedOperation),
    matchOperation doc pathname = Some matched ->
    exists entries m item,
      paths doc = Some entries /\ In m methods /\
      method matched = JS.toUpperCase m /\
      In (originalPath matched, item) entries /\
      method_of item m = Some (operation matched) /\
      ((originalPath matched = pathname /\ method matched = "GET") \/
       (directMatch entries pathname = None /\
        operationId (operation matched) = Some (JS.slice1 pathname))).
Proof.
  intros doc pathname matched H.
  destruct (matchOperation_cases _ _ H)
    as [entries [m [item [Hp [Hm [Heq [Hin [Hop Hwhich]]]]]]]].
  exists entries, m, item. repeat split; try assumption.
  - rewrite Heq. reflexivity.
  - destruct Hwhich as [[Ho ->]|Hid]; [left|now right].
    split; [exact Ho|]. rewrite Heq. reflexivity.
Qed.

Lemma matchOperation_returns_declared_witness :
  exists entries m item,
    paths Examples.fooStore = Some entries /\ In m methods /\
    "POST" = JS.toUpperCase m /\
    In ("/bar", item) entries /\
    method_of item m = Some Examples.fooNamed /\
    (("/bar" = "?foo" /\ "POST" = "GET") \/
     (directMatch entries "?foo" = None /\
      operationId Examples.fooNamed = Some (JS.slice1 "?foo"))).
Proof.
  exact (matchOperation_returns_declared Examples.fooStore "?foo" eq_refl).
Defined.

(** X2. For a document with paths the matcher returns nothing exactly when
    the token is no route with a GET operation and no operation of the
    document carries the token without its first code unit as operationId. *)
Theorem matchOperation_none_iff :
  forall (doc : OpenapiDocument) (entries : list (string * PathItem))
         (pathname : string),
    paths doc = Some entries ->
    (matchOperation doc pathname = None <->
     (forall item, lookup pathname entries = Some item -> get item = None) /\
     (forall q, In q (operationsOf entries) ->
                operationId (snd q) <> Some (JS.slice1 pathname))).
Proof.
  intros doc entries pathname Hp.
  pose proof (matchOperation_some_iff doc pathname Hp) as Hiff.
  split.
  - intros Hnone. split.
    + intros item Hl. destruct (get item) as [o|] eqn:Hg; [|reflexivity].
      exfalso. apply (proj2 Hiff); [|exact Hnone].
      left. unfold directMatch. rewrite Hl, Hg. discriminate.
    + intros q Hin Hid. apply (proj2 Hiff); [|exact Hnone].
      right. now exists q.
  - intros [Hget Hids].
    destruct (matchOperation doc pathname) as [matched|] eqn:Hm; [|reflexivity].
    exfalso. assert (Hsome : Some matched <> None) by discriminate.
    apply (proj1 Hiff) in Hsome as [Hd|[q [Hin Hid]]].
    + apply Hd. unfold directMatch.
      destruct (lookup pathname entries) as [item|] eqn:Hl; [|reflexivity].
      now apply Hget.
    + exact (Hids q Hin Hid).
Qed.

Lemma matchOperation_none_iff_witness :
  matchOperation Examples.petStore "/nope" = None.
Proof.
  apply (proj2 (matchOperation_none_iff Examples.petStore "/nope" eq_refl)).
  split.
  - intros item H. discriminate H.
  - intros q [<-|[]]. discriminate.
Defined.

(** X3. Only GET operations are reachable by their route: an operation the
    matcher returns under another method carries the token without its
    first code unit as operationId, so that an operation without operationId
    under post, put, patch or delete is never returned. *)
Theorem only_get_by_route :
  forall (doc : OpenapiDocument) (pathname : string) (matched : MatchedOperation),
    matchOperation doc pathname = Some matched ->
    method matched <> "GET" ->
    operationId (operation matched) = Some (JS.slice1 pathname) /\
    operationId (operation matched) <> None.
Proof.
  intros doc pathname matched H Hnot.
  destruct (matchOperation_cases _ _ H)
    as [entries [m [item [Hp [Hm [Heq [Hin [Hop Hwhich]]]]]]]].
  destruct Hwhich as [[_ ->]|[_ Hid]].
  - exfalso. apply Hnot. rewrite Heq. reflexivity.
  - split; [exact Hid|]. rewrite Hid. discriminate.
Qed.

Lemma only_get_by_route_witness :
  operationId Examples.fooNamed = Some (JS.slice1 "?foo") /\
  operationId Examples.fooNamed <> None.
Proof.
  apply (only_get_by_route Examples.fooStore "?foo"
           (matched := {| operation := Examples.fooNamed; originalPath := "/bar";
                          method := "POST" |}) eq_refl).
  discriminate.
Defined.

(** ** The matcher and the sub-document of an operation *)

Lemma matchByOperationId_single :
  forall n route m op,
    In m methods -> operationId op = Some n ->
    matchByOperationId n [(route, pathItemOf m op)] =
    Some {| operation := op; originalPath := route; method := JS.toUpperCase m |}.
Proof.
  intros n route m op Hm Hid. simpl in Hm.
  destruct Hm as [<-|[<-|[<-|[<-|[<-|[]]]]]];
    cbn [matchByOperationId methods find hasOperationId method_of pathItemOf
         String.eqb Ascii.eqb Bool.eqb get post put patch delete];
    rewrite ?Hid, ?String.eqb_refl; cbn [find hasOperationId]; rewrite ?Hid, ?String.eqb_refl;
    reflexivity.
Qed.

(** X4. The sub-document built for a matched operation still resolves the
    same token to the same matched operation. *)
Theorem subset_still_matches :
  forall (doc : OpenapiDocument) (pathname : string) (matched : MatchedOperation),
    matchOperation doc pathname = Some matched ->
    matchOperation (subsetOf doc matched) pathname = Some matched.
Proof.
  intros doc pathname matched H.
  destruct (matchOperation_cases _ _ H)
    as [entries [m [item [Hp [Hm [Heq [Hin [Hop Hwhich]]]]]]]].
  destruct matched as [op route meth]. cbn [operation originalPath method] in *.
  injection Heq as Hmeth. subst meth.
  unfold matchOperation, subsetOf. cbn [paths operation originalPath method].
  rewrite (lower_of_upper_method Hm). unfold directMatch. cbn [lookup].
  destruct Hwhich as [[-> ->]|[_ Hid]].
  - rewrite String.eqb_refl. reflexivity.
  - destruct (String.eqb route pathname) eqn:He.
    + apply String.eqb_eq in He. subst route.
      destruct (get (pathItemOf m op)) as [o|] eqn:Hg.
      * simpl in Hm.
        destruct Hm as [<-|[<-|[<-|[<-|[<-|[]]]]]]; try discriminate Hg.
        injection Hg as <-. reflexivity.
      * cbv zeta. now apply matchByOperationId_single.
    + cbv zeta. now apply matchByOperationId_single.
Qed.

Lemma subset_still_matches_witness :
  matchOperation
    (subsetOf Examples.fooStore
       {| operation := Examples.fooNamed; originalPath := "/bar"; method := "POST" |})
    "?foo" =
  Some {| operation := Examples.fooNamed; originalPath := "/bar"; method := "POST" |}.
Proof.
  exact (subset_still_matches Examples.fooStore "?foo"
           (matched := {| operation := Examples.fooNamed; originalPath := "/bar";
                          method := "POST" |}) eq_refl).
Defined.

(** ** The identifiers the handlers print lead back to operations *)

Lemma resolveDetail_succeeds :
  forall env d, isError (resolveDetail env d) = Some false.
Proof.
  intros env d. unfold resolveDetail. destruct (dereferenceSync env d); reflexivity.
Qed.

(** X5. Every identifier listed after Available IDs in the not-found
    message is a token the matcher resolves: asked again with it, the
    handler answers successfully. *)
Theorem listed_identifiers_resolve :
  forall (env : Capabilities) (id u : string) (raw : RawDocument)
         (doc : OpenapiDocument) (entries : list (string * PathItem)) (i : string),
    JS.truthy id = true ->
    locate env id = Return (u, raw) ->
    normalize env u raw = Return doc ->
    paths doc = Some entries ->
    In i (availableOperationIds entries) ->
    matchOperation doc ("/" ++ i) <> None /\
    isError (handleGetApiOperation env id i) = Some false.
Proof.
  intros env id u raw doc entries i Hid Hloc Hnorm Hp Hin.
  apply in_availableOperationIds in Hin as [Hne [q [Hq Hi]]].
  assert (Hsome : matchOperation doc ("/" ++ i) <> None).
  { apply (proj2 (matchOperation_some_iff doc ("/" ++ i) Hp)). right. now exists q. }
  split; [exact Hsome|].
  rewrite (operation_when_normalized env id i Hid (proj2 (truthy_nonempty i) Hne)
             Hloc Hnorm).
  destruct (matchOperation doc ("/" ++ i)) as [matched|]; [|now contradiction Hsome].
  apply resolveDetail_succeeds.
Qed.

Lemma listed_identifiers_resolve_witness :
  matchOperation Examples.petStore ("/" ++ "listPets") <> None /\
  isError (handleGetApiOperation Examples.env "petstore" "listPets") = Some false.
Proof.
  apply (listed_identifiers_resolve Examples.env "petstore"
           (u := "https://specs.example.com/petstore")
           (raw := {| swagger := None; document := Examples.petStore |})
           (entries := [("/pets", Examples.onlyGet Examples.listPets)])
           "listPets" eq_refl eq_refl eq_refl eq_refl).
  simpl. now left.
Defined.

(** X6. The pointer the overview prints for a GET operation without
    operationId is its route, and the route without its leading separator,
    given to the operation handler as token, is matched with that very
    operation. *)
Theorem route_pointer_round_trip :
  forall (env : Capabilities) (hostname : string) (doc : OpenapiDocument)
         (entries : list (string * PathItem)) (token : string)
         (item : PathItem) (op : Operation),
    paths doc = Some entries ->
    lookup ("/" ++ token) entries = Some item ->
    get item = Some op ->
    JS.truthyOpt (operationId op) = false ->
    In ("/" ++ token, "get", op) (operationsOf entries) /\
    Item.openapiUrl (makeItem env hostname doc ("/" ++ token) "get" op) =
    "https://oapis.org/openapi/" ++ hostname ++ "/" ++ token /\
    matchOperation doc ("/" ++ token) =
    Some {| operation := op; originalPath := "/" ++ token; method := "GET" |}.
Proof.
  intros env hostname doc entries token item op Hp Hl Hg Hno.
  split; [|split].
  - apply in_operationsOf. split; [simpl; tauto|].
    exists item. split; [now apply lookup_in | exact Hg].
  - unfold makeItem. cbn [Item.openapiUrl].
    destruct (operationId op) as [[|c r]|]; try reflexivity.
    simpl in Hno. discriminate Hno.
  - unfold matchOperation, directMatch. now rewrite Hp, Hl, Hg.
Qed.

Lemma route_pointer_round_trip_witness :
  matchOperation Cases.routeStore ("/" ++ "health") =
  Some {| operation := Cases.anonymous; originalPath := "/health"; method := "GET" |}.
Proof.
  apply (route_pointer_round_trip Examples.env "routes" Cases.routeStore "health"
           (item := {| get := Some Cases.anonymous; post := None; put := None;
                       delete := Some Cases.anonymousDelete; patch := None |})
           eq_refl eq_refl eq_refl eq_refl).
Defined.

(** X7. The pointer the overview prints for an operation with an
    operationId that is not empty ends with that identifier; when no route
    with a GET operation is spelled like it and no other operation carries
    it, the identifier given as token is matched with that very operation. *)
Theorem identifier_pointer_round_trip :
  forall (env : Capabilities) (hostname : string) (doc : OpenapiDocument)
         (entries : list (string * PathItem))
         (q : string * string * Operation) (i : string),
    paths doc = Some entries ->
    In q (operationsOf entries) ->
    operationId (snd q) = Some i ->
    i <> EmptyString ->
    directMatch entries ("/" ++ i) = None ->
    (forall q', In q' (operationsOf entries) ->
                operationId (snd q') = Some i -> q' = q) ->
    Item.openapiUrl (itemOf env hostname doc q) =
    "https://oapis.org/openapi/" ++ hostname ++ "/" ++ i /\
    matchOperation doc ("/" ++ i) = Some (matchedOf q).
Proof.
  intros env hostname doc entries q i Hp Hin Hi Hne Hd Huniq.
  split.
  - rewrite item_openapiUrl. unfold pointerUrl, identifierPart. rewrite Hi.
    now rewrite (proj2 (truthy_nonempty i) Hne).
  - unfold matchOperation. rewrite Hp, Hd. cbv zeta.
    change (JS.slice1 ("/" ++ i)) with i. rewrite matchByOperationId_first.
    destruct (find (identifiedBy i) (operationsOf entries)) as [x|] eqn:Hf.
    + apply find_some in Hf as [Hx Hxi]. apply identifiedBy_iff in Hxi.
      now rewrite (Huniq x Hx Hxi).
    + apply (proj2 (identifiedBy_iff i q)) in Hi.
      rewrite (find_none _ _ Hf q Hin) in Hi. discriminate Hi.
Qed.

Lemma identifier_pointer_round_trip_witness :
  Item.openapiUrl
    (itemOf Examples.env "petstore" Examples.petStore ("/pets", "get", Examples.listPets))
  = "https://oapis.org/openapi/petstore/listPets" /\
  matchOperation Examples.petStore ("/" ++ "listPets") =
  Some (matchedOf ("/pets", "get", Examples.listPets)).
Proof.
  apply (@identifier_pointer_round_trip Examples.env "petstore" Examples.petStore
           [("/pets", Examples.onlyGet Examples.listPets)]
           ("/pets", "get", Examples.listPets) "listPets" eq_refl).
  - simpl. now left.
  - reflexivity.
  - discriminate.
  - reflexivity.
  - intros q' [<-|[]] _. reflexivity.
Defined.

(** ** Every outcome of the two tool handlers *)

(** X8. Whatever the environment answers, [handleGetApiOverview] returns
    one text block: either an error result whose text starts with Error:,
    or a successful result whose text is the overview of the located and
    normalised document, which is then at most 250,000 code units long. *)
Theorem overview_handler_outcomes :
  forall (env : Capabilities) (id : string),
    exists t,
      content (handleGetApiOverview env id) = [textBlock (Plain t)] /\
      metadata (handleGetApiOverview env id) = None /\
      ((isError (handleGetApiOverview env id) = Some true /\
        exists m, t = "Error: " ++ m) \/
       (isError (handleGetApiOverview env id) = Some false /\
        (JS.length t <= 250000)%Z /\
        JS.truthy id = true /\
        exists u raw doc,
          locate env id = Return (u, raw) /\
          normalize env u raw = Return doc /\
          t = generateOverview env id doc)).
Proof.
  intros env id.
  destruct (JS.truthy id) eqn:Hid.
  - destruct (locate env id) as [[u raw]|m] eqn:Hloc.
    + destruct (normalize env u raw) as [doc|m] eqn:Hnorm.
      * rewrite (overview_when_normalized env id Hid Hloc Hnorm).
        destruct (250000 <? JS.length (generateOverview env id doc))%Z eqn:Hlen.
        -- eexists. split; [reflexivity|]. split; [reflexivity|]. left.
           split; [reflexivity|]. eexists; reflexivity.
        -- eexists. split; [reflexivity|]. split; [reflexivity|]. right.
           split; [reflexivity|]. split; [now apply Z.ltb_ge|].
           split; [reflexivity|]. now exists u, raw, doc.
      * rewrite (overview_when_conversion_fails env id Hid Hloc Hnorm).
        eexists. split; [reflexivity|]. split; [reflexivity|]. left.
        split; [reflexivity|]. eexists; reflexivity.
    + unfold handleGetApiOverview. rewrite Hid, Hloc. cbn [negb bind tryCatch].
      eexists. split; [reflexivity|]. split; [reflexivity|]. left.
      split; [reflexivity|]. eexists; reflexivity.
  - unfold handleGetApiOverview. rewrite Hid. cbn [negb].
    eexists. split; [reflexivity|]. split; [reflexivity|]. left.
    split; [reflexivity|]. eexists; reflexivity.
Qed.

(** X9. Whatever the environment answers, [handleGetApiOperation] returns
    one text block: either an error result whose text starts with Error:,
    or a successful result that serialises a document, namely the
    sub-document of the operation matched in the located and normalised
    document, as it is when dereferencing fails and dereferenced and
    stripped of its three sections otherwise. *)
Theorem operation_handler_outcomes :
  forall (env : Capabilities) (id token : string),
    exists block,
      content (handleGetApiOperation env id token) = [block] /\
      type_ block = "text" /\
      metadata (handleGetApiOperation env id token) = None /\
      ((isError (handleGetApiOperation env id token) = Some true /\
        exists m, text block = Plain ("Error: " ++ m)) \/
       (isError (handleGetApiOperation env id token) = Some false /\
        JS.truthy id = true /\ JS.truthy token = true /\
        exists u raw doc matched,
          locate env id = Return (u, raw) /\
          normalize env u raw = Return doc /\
          matchOperation doc ("/" ++ token) = Some matched /\
          ((dereferenceSync env (subsetOf doc matched) = None /\
            text block = Dump (subsetOf doc matched)) \/
           (exists d, dereferenceSync env (subsetOf doc matched) = Some d /\
                      text block = Dump (withoutSections d))))).
Proof.
  intros env id token.
  assert (Herr : forall m,
             exists block,
               content (caught m) = [block] /\ type_ block = "text" /\
               metadata (caught m) = None /\
               ((isError (caught m) = Some true /\
                 exists m', text block = Plain ("Error: " ++ m')) \/
                (isError (caught m) = Some false /\
                 JS.truthy id = true /\ JS.truthy token = true /\
                 exists u raw doc matched,
                   locate env id = Return (u, raw) /\
                   normalize env u raw = Return doc /\
                   matchOperation doc ("/" ++ token) = Some matched /\
                   ((dereferenceSync env (subsetOf doc matched) = None /\
                     text block = Dump (subsetOf doc matched)) \/
                    (exists d, dereferenceSync env (subsetOf doc matched) = Some d /\
                               text block = Dump (withoutSections d)))))).
  { intros m. eexists. split; [reflexivity|]. split; [reflexivity|].
    split; [reflexivity|]. left. split; [reflexivity|]. eexists; reflexivity. }
  destruct (JS.truthy id) eqn:Hid; [destruct (JS.truthy token) eqn:Htok|].
  - destruct (locate env id) as [[u raw]|m] eqn:Hloc.
    + destruct (normalize env u raw) as [doc|m] eqn:Hnorm.
      * rewrite (operation_when_normalized env id token Hid Htok Hloc Hnorm).
        destruct (matchOperation doc ("/" ++ token)) as [matched|] eqn:Hm.
        -- unfold resolveDetail.
           destruct (dereferenceSync env (subsetOf doc matched)) as [d|] eqn:Hd.
           ++ eexists. split; [reflexivity|]. split; [reflexivity|].
              split; [reflexivity|]. right. split; [reflexivity|].
              split; [reflexivity|]. split; [reflexivity|].
              exists u, raw, doc, matched.
              do 3 (split; [first [assumption | reflexivity]|]).
              right. exists d. split; [assumption | reflexivity].
           ++ eexists. split; [reflexivity|]. split; [reflexivity|].
              split; [reflexivity|]. right. split; [reflexivity|].
              split; [reflexivity|]. split; [reflexivity|].
              exists u, raw, doc, matched.
              do 3 (split; [first [assumption | reflexivity]|]).
              left. split; [assumption | reflexivity].
        -- destruct (paths doc); apply Herr.
      * rewrite (operation_when_conversion_fails env id token Hid Htok Hloc Hnorm).
        apply Herr.
    + unfold handleGetApiOperation. rewrite Hid, Htok, Hloc.
      cbn [negb orb bind tryCatch]. apply Herr.
  - unfold handleGetApiOperation. rewrite Hid, Htok. cbn [negb orb].
    eexists. split; [reflexivity|]. split; [reflexivity|].
    split; [reflexivity|]. left. split; [reflexivity|]. eexists; reflexivity.
  - unfold handleGetApiOperation. rewrite Hid. cbn [negb orb].
    eexists. split; [reflexivity|]. split; [reflexivity|].
    split; [reflexivity|]. left. split; [reflexivity|]. eexists; reflexivity.
Qed.

(** ** Documents that need no conversion *)

Lemma starts_with_3_truthy :
  forall v, JS.startsWith "3." v = true -> JS.truthy v = true.
Proof.
  intros [|c r] H; [discriminate H | reflexivity].
Qed.

(** X10. A document is taken as it is, whatever the converter would
    answer, exactly when it has no swagger marker (or an empty one) and an
    openapi field that starts with 3.; normalisation then returns the very
    document. *)
Theorem normalize_modern_identity :
  forall (raw : RawDocument),
    (isSwagger raw = false <->
     JS.truthyOpt (swagger raw) = false /\
     exists v, openapi (document raw) = Some v /\ JS.startsWith "3." v = true)
    /\
    (isSwagger raw = false ->
     forall env u, normalize env u raw = Return (document raw)).
Proof.
  intros raw.
  assert (Hiff : isSwagger raw = false <->
                 JS.truthyOpt (swagger raw) = false /\
                 exists v, openapi (document raw) = Some v /\
                           JS.startsWith "3." v = true).
  { unfold isSwagger. split.
    - intros H. apply orb_false_iff in H as [Hs Hv]. split; [exact Hs|].
      destruct (openapi (document raw)) as [v|]; [|discriminate Hv].
      apply orb_false_iff in Hv as [_ H3]. apply negb_false_iff in H3. now exists v.
    - intros [Hs [v [Hv H3]]]. rewrite Hs, Hv, H3, (starts_with_3_truthy v H3).
      reflexivity. }
  split; [exact Hiff|].
  intros Hs env u. unfold normalize. rewrite Hs.
  apply Hiff in Hs as [_ [v [Hv H3]]]. rewrite Hv. cbn [JS.truthyOpt].
  now rewrite (starts_with_3_truthy v H3).
Qed.

Lemma normalize_modern_identity_witness :
  normalize Examples.envLegacy "https://specs.example.com/petstore"
    {| swagger := None; document := Examples.petStore |}
  = Return Examples.petStore.
Proof.
  exact (proj2 (normalize_modern_identity
                  {| swagger := None; document := Examples.petStore |})
           eq_refl Examples.envLegacy "https://specs.example.com/petstore").
Defined.

(** ** The count of the banner, when it is right *)

Lemma endpointCount_with_description_witness :
  hd EmptyString (overviewLines Examples.env "described" Cases.describedStore) =
  banner "described" 2.
Proof.
  exact (endpointCount_with_description Examples.env "described" Cases.describedStore
           (entries := [("/pets",
                         {| get := Some Examples.listPets;
                            post := Some (Examples.operationNamed (Some "addPet") None None);
                            put := None; delete := None; patch := None |})])
           (i := {| title := "Pet Store"; version := "1.0";
                    description := Some "A store of pets" |})
           (d := "A store of pets")
           eq_refl eq_refl eq_refl eq_refl).
Defined.

(** ** How many operations force the compact form *)

Lemma length_append :
  forall a b, String.length (a ++ b) = (String.length a + String.length b)%nat.
Proof.
  intros a b; induction a as [|c a IH]; simpl; [reflexivity | now rewrite IH].
Qed.

Lemma quoteUnit_length :
  forall c, (1 <= String.length (JS.quoteUnit c))%nat.
Proof.
  intros c. unfold JS.quoteUnit.
  repeat match goal with
         | |- context [if ?b then _ else _] => destruct b
         end; simpl; lia.
Qed.

Lemma quoteUnits_length :
  forall s, (String.length s <= String.length (JS.quoteUnits s))%nat.
Proof.
  intros s; induction s as [|c s IH]; simpl; [lia|].
  rewrite length_append. pose proof (quoteUnit_length c). lia.
Qed.

Lemma stringifyString_length :
  forall s, (String.length s + 2 <= String.length (JS.stringifyString s))%nat.
Proof.
  intros s. unfold JS.stringifyString. simpl. rewrite length_append. simpl.
  pose proof (quoteUnits_length s). lia.
Qed.

Lemma stringifyItem_length :
  forall item,
    (65 + String.length (Item.pathPart item) + String.length (Item.openapiUrl item)
     <= String.length (stringifyItem item))%nat.
Proof.
  intros item. unfold stringifyItem, stringifyMember, JS.join.
  cbn [String.concat].
  repeat (rewrite length_append || cbn [String.length String.append]).
  pose proof (stringifyString_length (Item.operationId item)).
  pose proof (stringifyString_length (Item.pathPart item)).
  pose proof (stringifyString_length (Item.summaryPart item)).
  pose proof (stringifyString_length (Item.openapiUrl item)).
  pose proof (stringifyString_length "operationId") as K1.
  pose proof (stringifyString_length "pathPart") as K2.
  pose proof (stringifyString_length "summaryPart") as K3.
  pose proof (stringifyString_length "openapiUrl") as K4.
  cbn [String.length] in K1, K2, K3, K4.
  lia.
Qed.

Lemma joined_length :
  forall (k : nat) (l : list string),
    (forall x, In x l -> k <= String.length x)%nat ->
    ((k + 1) * List.length l <= String.length (JS.join "," l) + 1)%nat.
Proof.
  intros k l; induction l as [|x l IH]; intros Hall.
  - simpl. lia.
  - assert (Hx : (k <= String.length x)%nat) by (apply Hall; now left).
    assert (Hl : ((k + 1) * List.length l <= String.length (JS.join "," l) + 1)%nat)
      by (apply IH; intros y Hy; apply Hall; now right).
    unfold JS.join in *. cbn [String.concat List.length].
    destruct l as [|y l].
    + simpl. lia.
    + rewrite !length_append. cbn [String.length] in *. lia.
Qed.

Lemma itemOf_length :
  forall env hostname doc q,
    In (snd (fst q)) methods ->
    (95 <= String.length (stringifyItem (itemOf env hostname doc q)))%nat.
Proof.
  intros env hostname doc [[route m] op] Hm. cbn [fst snd] in Hm.
  pose proof (stringifyItem_length (itemOf env hostname doc (route, m, op))) as H.
  assert (Hp : (4 <= String.length
                       (Item.pathPart (itemOf env hostname doc (route, m, op))))%nat).
  { unfold itemOf, makeItem. cbn [Item.pathPart fst snd]. simpl in Hm.
    destruct Hm as [<-|[<-|[<-|[<-|[<-|[]]]]]];
      cbn [JS.toUpperCase JS.mapUnits String.append String.length]; lia. }
  assert (Hu : (26 <= String.length
                        (Item.openapiUrl (itemOf env hostname doc (route, m, op))))%nat).
  { unfold itemOf, makeItem. cbn [Item.openapiUrl fst snd String.append String.length].
    lia. }
  lia.
Qed.

(** X11. A document with 521 operations or more is always rendered in the
    compact form: the serialised item set of that many operations exceeds
    50,000 code units whatever their routes, identifiers and summaries. *)
Theorem many_operations_are_compact :
  forall (env : Capabilities) (hostname : string) (doc : OpenapiDocument)
         (entries : list (string * PathItem)),
    paths doc = Some entries ->
    (521 <= List.length (operationsOf entries))%nat ->
    itemSetIsLong env hostname doc = true /\
    overviewLines env hostname doc =
    (hd EmptyString (overviewLines env hostname doc) :: EmptyString ::
     pushInfo env doc [] ++
     map (operationLine env hostname doc true) (operationsOf entries))%list.
Proof.
  intros env hostname doc entries Hp Hn.
  assert (Hlong : itemSetIsLong env hostname doc = true).
  { unfold itemSetIsLong. rewrite (collectItems_operations env hostname doc Hp).
    apply Z.ltb_lt. unfold JS.length, stringifyItems.
    cbn [String.append String.length]. rewrite length_append. cbn [String.length].
    pose proof (@joined_length 95
                  (map stringifyItem
                     (map (itemOf env hostname doc) (operationsOf entries)))) as Hj.
    rewrite !length_map in Hj.
    assert (Hall : forall x,
               In x (map stringifyItem
                       (map (itemOf env hostname doc) (operationsOf entries))) ->
               (95 <= String.length x)%nat).
    { intros x Hx. apply in_map_iff in Hx as [it [<- Hit]].
      apply in_map_iff in Hit as [q [<- Hq]]. apply itemOf_length.
      destruct q as [[route m] op]. now apply in_operationsOf in Hq as [Hm _]. }
    specialize (Hj Hall). lia. }
  split; [exact Hlong|].
  unfold overviewLines. cbn [hd]. do 3 f_equal.
  fold (itemSetIsLong env hostname doc). rewrite Hlong.
  rewrite (collectItems_operations env hostname doc Hp), map_map.
  apply map_ext. intros q. apply itemLine_operationLine.
Qed.

Lemma many_operations_are_compact_witness :
  itemSetIsLong Examples.env "many" Cases.manyStore = true.
Proof.
  refine (proj1 (many_operations_are_compact Examples.env "many" Cases.manyStore
                   (entries := map (fun n => ("/r" ++ JS.numberToString (Z.of_nat n),
                                              Examples.onlyGet Cases.anonymous))
                                   (seq 0 521))
                   eq_refl _)).
  vm_compute. reflexivity.
Defined.

(** ** The dispatcher *)

Lemma equals_true :
  forall x literal, equals x literal = true <-> x = Some literal.
Proof.
  intros [s|] literal; simpl.
  - rewrite String.eqb_eq. split; [now intros -> | now intros [= ->]].
  - split; discriminate.
Qed.

Lemma callTool_returns :
  forall env id p response,
    callTool env id p = Return response ->
    exists r, response = jsonRpcResponse id (ToolCall r).
Proof.
  intros env id p response. unfold callTool, destructure.
  destruct (equals (tool_name p) "getApiOverview");
    [|destruct (equals (tool_name p) "getApiOperation")];
    try (destruct (arguments p) as [a|]; cbn [bind]; [|discriminate]);
    intros H; injection H as <-; eexists; reflexivity.
Qed.

(** What the [try] block of [handleMcp] can return. *)
Lemma handlePost_returns :
  forall env request response,
    handlePost env request = Return response ->
    (exists id result, response = jsonRpcResponse id result) \/
    (exists id code m,
        response = jsonRpcError id code m /\ (code = -32602 \/ code = -32601)%Z) \/
    response = {| status := 202; headers := corsHeaders; body := NoBody |}.
Proof.
  intros env request response. unfold handlePost.
  destruct (json request) as [[message|]|e]; cbn [bind]; try discriminate.
  repeat match goal with
         | |- context [if equals ?a ?b then _ else _] => destruct (equals a b)
         end;
    try (intros H; injection H as <-;
         first [ left; do 2 eexists; reflexivity
               | right; right; reflexivity
               | right; left; do 3 eexists; split; [reflexivity | tauto] ]).
  - unfold paramsOf. destruct (params message) as [p|]; cbn [bind]; [|discriminate].
    intros H; injection H as <-. right; left. do 3 eexists. split; [reflexivity|tauto].
  - destruct (fetch env "https://openapisearch.com/") as [res|e]; cbn [bind];
      [|discriminate].
    intros H; injection H as <-. left. do 2 eexists. reflexivity.
  - unfold paramsOf. destruct (params message) as [p|]; cbn [bind]; [|discriminate].
    destruct (callTool env (message_id message) p) as [r|e] eqn:Hc.
    + destruct (callTool_returns _ _ _ Hc) as [t ->].
      intros H; injection H as <-. left. do 2 eexists. reflexivity.
    + intros H; injection H as <-. left. do 2 eexists. reflexivity.
Qed.

Lemma cors_in_json_headers : incl corsHeaders jsonHeaders.
Proof.
  unfold jsonHeaders. apply incl_tl, incl_refl.
Qed.

Lemma handleMcp_shape :
  forall env request,
    incl corsHeaders (headers (handleMcp env request)) /\
    In (status (handleMcp env request)) [200; 202; 405]%Z /\
    (forall id code m,
        body (handleMcp env request) = RpcErrorBody id code m ->
        status (handleMcp env request) = 200%Z /\
        In code [-32700; -32602; -32601]%Z).
Proof.
  intros env request. unfold handleMcp.
  destruct (String.eqb (req_method request) "GET" &&
            match accept request with
            | Some a => includes "text/event-stream" a
            | None => false
            end).
  { cbn. split; [apply incl_refl|]. split; [tauto|]. discriminate. }
  destruct (String.eqb (req_method request) "GET").
  { cbn [headers status body]. split; [apply cors_in_json_headers|].
    split; [simpl; tauto|]. discriminate. }
  destruct (negb (String.eqb (req_method request) "POST")).
  { cbn. split; [apply incl_refl|]. split; [tauto|]. discriminate. }
  destruct (handlePost env request) as [response|e] eqn:Hp.
  - destruct (handlePost_returns _ _ Hp)
      as [[id [result ->]]|[[id [code [m [-> Hcode]]]]| ->]];
      cbn [headers status body jsonRpcResponse jsonRpcError].
    + split; [apply cors_in_json_headers|]. split; [simpl; tauto|]. discriminate.
    + split; [apply cors_in_json_headers|]. split; [simpl; tauto|].
      intros id' code' m' H. injection H as _ <- _. split; [reflexivity|].
      simpl. destruct Hcode as [->| ->]; tauto.
    + split; [apply incl_refl|]. split; [simpl; tauto|]. discriminate.
  - cbn [headers status body jsonRpcError].
    split; [apply cors_in_json_headers|]. split; [simpl; tauto|].
    intros id' code' m' H. injection H as _ <- _. split; [reflexivity|]. simpl; tauto.
Qed.

(** X12. Every response of the worker except the redirect of the root path
    carries the three CORS headers, and its status is one of 200, 202, 204,
    404 and 405; a JSON-RPC error always travels with status 200 and its
    code is -32700, -32602 or -32601. *)
Theorem responses_carry_cors :
  forall (env : Capabilities) (request : HttpRequest),
    ((status (worker_fetch env request) = 302%Z /\
      headers (worker_fetch env request) = [("Location", "/mcp")] /\
      body (worker_fetch env request) = NoBody /\
      req_pathname request = "/" /\ req_method request <> "OPTIONS") \/
     (incl corsHeaders (headers (worker_fetch env request)) /\
      In (status (worker_fetch env request)) [200; 202; 204; 404; 405]%Z))
    /\
    (forall id code m,
        body (worker_fetch env request) = RpcErrorBody id code m ->
        status (worker_fetch env request) = 200%Z /\
        In code [-32700; -32602; -32601]%Z).
Proof.
  intros env request. unfold worker_fetch.
  destruct (String.eqb (req_method request) "OPTIONS") eqn:Ho.
  { cbn. split; [right; split; [apply incl_refl | tauto] | discriminate]. }
  destruct (String.eqb (req_pathname request) "/") eqn:Hroot.
  { cbn. split; [|discriminate]. left. repeat split.
    - now apply String.eqb_eq.
    - intros H. rewrite H in Ho. discriminate Ho. }
  destruct (negb (String.eqb (req_pathname request) "/mcp")).
  { cbn. split; [right; split; [apply incl_refl | tauto] | discriminate]. }
  destruct (handleMcp_shape env request) as [Hc [Hs He]].
  split; [|exact He]. right. split; [exact Hc|].
  simpl in Hs |- *. tauto.
Qed.

(** X13. The worker answers 404 exactly for a request that is no OPTIONS
    request and whose path is neither the root nor /mcp, and redirects
    exactly a request to the root that is no OPTIONS request; an OPTIONS
    request gets 204 on every path. *)
Theorem routing_by_path :
  forall (env : Capabilities) (request : HttpRequest),
    (status (worker_fetch env request) = 404%Z <->
     req_method request <> "OPTIONS" /\
     req_pathname request <> "/" /\ req_pathname request <> "/mcp")
    /\
    (status (worker_fetch env request) = 302%Z <->
     req_method request <> "OPTIONS" /\ req_pathname request = "/")
    /\
    (req_method request = "OPTIONS" ->
     worker_fetch env request =
     {| status := 204; headers := corsHeaders; body := NoBody |}).
Proof.
  intros env request. unfold worker_fetch.
  destruct (String.eqb (req_method request) "OPTIONS") eqn:Ho.
  { apply String.eqb_eq in Ho. cbn [status].
    split; [|split]; [split | split | reflexivity];
      try discriminate; intros [H _]; now contradiction H. }
  apply String.eqb_neq in Ho.
  destruct (String.eqb (req_pathname request) "/") eqn:Hroot.
  { apply String.eqb_eq in Hroot. cbn [status].
    split; [|split]; [split | split | intros H; now contradiction Ho].
    - discriminate.
    - intros [_ [H _]]. now contradiction H.
    - now intros _.
    - reflexivity. }
  apply String.eqb_neq in Hroot.
  destruct (String.eqb (req_pathname request) "/mcp") eqn:Hmcp; cbn [negb status].
  - apply String.eqb_eq in Hmcp.
    destruct (handleMcp_shape env request) as [_ [Hs _]].
    split; [|split]; [split | split | intros H; now contradiction Ho].
    + intros H. rewrite H in Hs. simpl in Hs. lia.
    + intros [_ [_ H]]. now contradiction H.
    + intros H. rewrite H in Hs. simpl in Hs. lia.
    + intros [_ H]. now contradiction Hroot.
  - apply String.eqb_neq in Hmcp.
    split; [|split]; [split | split | intros H; now contradiction Ho].
    + now intros _.
    + reflexivity.
    + discriminate.
    + intros [_ H]. now contradiction Hroot.
Qed.

Lemma handleMcp_post :
  forall env request,
    req_method request = "POST" ->
    handleMcp env request =
    match handlePost env request with
    | Return response => response
    | Throw _ => jsonRpcError (Some JNull) (-32700) "Parse error"
    end.
Proof.
  intros env request H. unfold handleMcp. rewrite H. reflexivity.
Qed.

Lemma handlePost_message :
  forall env request message,
    json request = Return (Some message) ->
    handlePost env request =
    let m := message_method message in
    let id := message_id message in
    if equals m "ping" then Return (jsonRpcResponse id EmptyObject)
    else if equals m "initialize" then Return (jsonRpcResponse id InitializeResult)
    else if equals m "notifications/initialized" then
      Return {| status := 202; headers := corsHeaders; body := NoBody |}
    else if equals m "prompts/list" then Return (jsonRpcResponse id PromptsList)
    else if equals m "resources/list" then Return (jsonRpcResponse id ResourcesList)
    else if equals m "resources/read" then
      p <- paramsOf message ;;
      Return (jsonRpcError id (-32602) ("Resource not found: " ++ interpolate (uri p)))
    else if equals m "tools/list" then
      res <- fetch env "https://openapisearch.com/" ;;
      Return (jsonRpcResponse id (ToolsList (responseText res)))
    else if equals m "tools/call" then
      p <- paramsOf message ;;
      match callTool env id p with
      | Return response => Return response
      | Throw message =>
          Return (jsonRpcResponse id
                    (ToolCall {| content :=
                                   [textBlock
                                      (Plain ("Error executing tool: " ++ message))];
                                 metadata := None;
                                 isError := Some true |}))
      end
    else Return (jsonRpcError id (-32601) ("Method not found: " ++ interpolate m)).
Proof.
  intros env request message H. unfold handlePost. rewrite H. reflexivity.
Qed.

(** X14. On a POST request the error -32700 Parse error, with a null id,
    is the answer to every failure inside the handling of the message and
    to nothing else: a body that is no JSON or is null, a resources/read
    or tools/call message without params, and a tools/list message when
    the fetch of the catalogue is rejected. *)
Theorem parse_error_sources :
  forall (env : Capabilities) (request : HttpRequest),
    req_method request = "POST" ->
    (body (handleMcp env request) = RpcErrorBody (Some JNull) (-32700) "Parse error"
     <-> exists e, handlePost env request = Throw e)
    /\
    ((exists e, handlePost env request = Throw e) <->
     (exists e, json request = Throw e) \/
     json request = Return None \/
     exists message,
       json request = Return (Some message) /\
       (((message_method message = Some "resources/read" \/
          message_method message = Some "tools/call") /\
         params message = None) \/
        (message_method message = Some "tools/list" /\
         exists e, fetch env "https://openapisearch.com/" = Throw e))).
Proof.
  intros env request Hpost. split.
  - rewrite (handleMcp_post env request Hpost).
    destruct (handlePost env request) as [response|e] eqn:Hp.
    + split; [|intros [e' H]; discriminate H].
      intros Hb. exfalso.
      destruct (handlePost_returns _ _ Hp)
        as [[id [result ->]]|[[id [code [m [-> Hcode]]]]| ->]];
        cbn [body jsonRpcResponse jsonRpcError] in Hb; try discriminate Hb.
      injection Hb as _ Hc _. rewrite Hc in Hcode.
      destruct Hcode as [H|H]; discriminate H.
    + split; [intros _; now exists e | reflexivity].
  - destruct (json request) as [[message|]|e] eqn:Hj.
    + rewrite (handlePost_message env request Hj). cbv zeta. split.
      * intros [e He]. right. right. exists message. split; [reflexivity|].
        repeat match type of He with
               | context [if equals ?a ?b then _ else _] =>
                   destruct (equals a b) eqn:?; try discriminate He
               end.
        -- left. split; [left; now apply equals_true|].
           unfold paramsOf in He. destruct (params message); [discriminate He|reflexivity].
        -- right. split; [now apply equals_true|].
           destruct (fetch env "https://openapisearch.com/") as [res|e'];
             [discriminate He | now exists e'].
        -- left. split; [right; now apply equals_true|].
           unfold paramsOf in He. destruct (params message) as [p|]; [|reflexivity].
           cbn [bind] in He. destruct (callTool env (message_id message) p);
             discriminate He.
      * intros [[e H]|[H|[message' [Hm Hcause]]]]; try discriminate H.
        injection Hm as <-.
        destruct Hcause as [[[Hm|Hm] Hparams]|[Hm [e He]]]; rewrite Hm; cbn.
        -- unfold paramsOf. rewrite Hparams. eexists; reflexivity.
        -- unfold paramsOf. rewrite Hparams. eexists; reflexivity.
        -- rewrite He. eexists; reflexivity.
    + unfold handlePost. rewrite Hj. cbn [bind]. split.
      * intros _. right. now left.
      * intros _. eexists; reflexivity.
    + unfold handlePost. rewrite Hj. cbn [bind]. split.
      * intros _. left. now exists e.
      * intros _. now exists e.
Qed.

Lemma parse_error_sources_witness :
  body (handleMcp Examples.env (Cases.postOf (Cases.method_only "resources/read"))) =
  RpcErrorBody (Some JNull) (-32700) "Parse error".
Proof.
  pose proof (parse_error_sources Examples.env
                (Cases.postOf (Cases.method_only "resources/read")) eq_refl)
    as [Hbody Hsources].
  apply (proj2 Hbody). apply (proj2 Hsources).
  right. right. exists (Cases.method_only "resources/read").
  split; [reflexivity|]. left. split; [now left | reflexivity].
Defined.

(** X15. A tools/call message with params is always answered by a JSON-RPC
    result, never by a JSON-RPC error: the result of the handler named by
    the tool, an error result naming the tool when it is neither of the
    two, and an error result that starts with Error executing tool when the
    arguments are missing. *)
Theorem tool_call_is_answered :
  forall (env : Capabilities) (request : HttpRequest) (message : Message)
         (p : Params),
    req_method request = "POST" ->
    json request = Return (Some message) ->
    message_method message = Some "tools/call" ->
    params message = Some p ->
    exists r,
      handleMcp env request = jsonRpcResponse (message_id message) (ToolCall r) /\
      (forall a,
          tool_name p = Some "getApiOverview" -> arguments p = Some a ->
          r = handleGetApiOverview env (orEmpty (arg_id a))) /\
      (forall a,
          tool_name p = Some "getApiOperation" -> arguments p = Some a ->
          r = handleGetApiOperation env (orEmpty (arg_id a))
                (orEmpty (arg_operationIdOrRoute a))) /\
      (tool_name p <> Some "getApiOverview" ->
       tool_name p <> Some "getApiOperation" ->
       isError r = Some true /\
       content r =
       [textBlock (Plain ("Error: Unknown tool: " ++ interpolate (tool_name p)))]) /\
      ((tool_name p = Some "getApiOverview" \/ tool_name p = Some "getApiOperation") ->
       arguments p = None ->
       isError r = Some true /\
       exists e, content r = [textBlock (Plain ("Error executing tool: " ++ e))]).
Proof.
  intros env request message p Hpost Hj Hm Hp.
  rewrite (handleMcp_post env request Hpost), (handlePost_message env request Hj).
  cbv zeta. rewrite Hm. cbn [equals String.eqb Ascii.eqb Bool.eqb].
  unfold paramsOf. rewrite Hp. cbn [bind]. unfold callTool, destructure.
  destruct (equals (tool_name p) "getApiOverview") eqn:Hov.
  - apply equals_true in Hov.
    destruct (arguments p) as [a|] eqn:Ha; cbn [bind]; eexists;
      (split; [reflexivity|]); repeat split;
      try (intros; congruence); try (intros; discriminate).
    eexists; reflexivity.
  - destruct (equals (tool_name p) "getApiOperation") eqn:Hop.
    + apply equals_true in Hop.
      destruct (arguments p) as [a|] eqn:Ha; cbn [bind]; eexists;
        (split; [reflexivity|]); repeat split;
        try (intros; congruence); try (intros; discriminate).
      eexists; reflexivity.
    + assert (Hnov : tool_name p <> Some "getApiOverview").
      { intros H. apply equals_true in H. congruence. }
      assert (Hnop : tool_name p <> Some "getApiOperation").
      { intros H. apply equals_true in H. congruence. }
      eexists. split; [reflexivity|].
      split; [intros a H; now contradiction Hnov|].
      split; [intros a H; now contradiction Hnop|].
      split; [intros _ _; split; reflexivity|].
      intros [H|H] _; [now contradiction Hnov | now contradiction Hnop].
Qed.

Lemma tool_call_is_answered_witness :
  exists r,
    handleMcp Examples.env
      (Cases.postOf (Cases.call "getApiOverview"
                       (Some {| arg_id := Some "petstore";
                                arg_operationIdOrRoute := None |})))
    = jsonRpcResponse (Some (JNum 7)) (ToolCall r) /\
    r = handleGetApiOverview Examples.env "petstore".
Proof.
  destruct (tool_call_is_answered Examples.env
              (Cases.postOf (Cases.call "getApiOverview"
                               (Some {| arg_id := Some "petstore";
                                        arg_operationIdOrRoute := None |})))
              eq_refl eq_refl eq_refl eq_refl) as [r [Hr [Hov _]]].
  exists r. split; [exact Hr|]. exact (Hov _ eq_refl eq_refl).
Defined.

(** X16. A parsed message is answered with the error -32601 Method not
    found, echoing its id and naming its method, exactly when its method is
    none of the eight the dispatcher knows. *)
Theorem method_not_found_iff :
  forall (env : Capabilities) (request : HttpRequest) (message : Message),
    req_method request = "POST" ->
    json request = Return (Some message) ->
    ((forall k, In k knownMethods -> message_method message <> Some k) <->
     handleMcp env request =
     jsonRpcError (message_id message) (-32601)
       ("Method not found: " ++ interpolate (message_method message))).
Proof.
  intros env request message Hpost Hj.
  rewrite (handleMcp_post env request Hpost), (handlePost_message env request Hj).
  cbv zeta. split.
  - intros Hnone.
    assert (Hf : forall k, In k knownMethods ->
                           equals (message_method message) k = false).
    { intros k Hk. destruct (equals (message_method message) k) eqn:E; [|reflexivity].
      apply equals_true in E. now contradiction (Hnone k Hk). }
    rewrite !Hf by (simpl; tauto). reflexivity.
  - intros Hr k Hk Hm. rewrite Hm in Hr. simpl in Hk.
    destruct Hk as [<-|[<-|[<-|[<-|[<-|[<-|[<-|[<-|[]]]]]]]]];
      cbn [equals String.eqb Ascii.eqb Bool.eqb] in Hr; try discriminate Hr.
    + unfold paramsOf in Hr. destruct (params message); discriminate Hr.
    + destruct (fetch env "https://openapisearch.com/"); discriminate Hr.
    + unfold paramsOf in Hr. destruct (params message) as [p|]; [|discriminate Hr].
      cbn [bind] in Hr.
      destruct (callTool env (message_id message) p) as [r|e] eqn:Hc;
        [|discriminate Hr].
      destruct (callTool_returns _ _ _ Hc) as [t ->]. discriminate Hr.
Qed.

Lemma method_not_found_iff_witness :
  handleMcp Examples.env (Cases.postOf (Cases.method_only "tools/run")) =
  jsonRpcError (Some (JNum 1)) (-32601) "Method not found: tools/run".
Proof.
  apply (proj1 (method_not_found_iff Examples.env
                  (Cases.postOf (Cases.method_only "tools/run")) eq_refl eq_refl)).
  intros k Hk. simpl in Hk.
  destruct Hk as [<-|[<-|[<-|[<-|[<-|[<-|[<-|[<-|[]]]]]]]]]; discriminate.
Defined.

Lemma prefix_iff :
  forall p s, String.prefix p s = true <-> exists b, s = p ++ b.
Proof.
  intros p; induction p as [|c p IH]; intros s.
  - destruct s; simpl; split; try reflexivity; intros _; eexists; reflexivity.
  - destruct s as [|d s]; simpl.
    + split; [discriminate | intros [b H]; discriminate H].
    + destruct (ascii_dec c d) as [->|Hne].
      * rewrite IH. split; intros [b H]; exists b.
        -- now rewrite H.
        -- now injection H.
      * split; [discriminate|]. intros [b H]. injection H as H _.
        now contradiction Hne.
Qed.

Lemma includes_iff :
  forall needle s,
    includes needle s = true <-> exists a b, s = a ++ needle ++ b.
Proof.
  intros needle s. split.
  - induction s as [|c s IH].
    + cbn [includes]. rewrite orb_false_r. intros H.
      apply prefix_iff in H as [b H]. now exists EmptyString, b.
    + cbn [includes]. intros H. apply orb_true_iff in H as [H|H].
      * apply prefix_iff in H as [b H]. now exists EmptyString, b.
      * destruct (IH H) as [a [b Hs]]. exists (String c a), b. simpl. now rewrite Hs.
  - intros [a [b Hs]]. revert s Hs. induction a as [|c a IH]; intros s Hs.
    + assert (Hp : String.prefix needle s = true) by (apply prefix_iff; now exists b).
      destruct s; cbn [includes]; now rewrite Hp.
    + subst s. cbn [String.append includes]. rewrite (IH _ eq_refl).
      apply orb_true_r.
Qed.

(** X17. A request to the dispatcher that is no POST request is answered
    without reading its body: a GET request whose accept header contains
    text/event-stream anywhere gets 405, every other GET request the
    server description with status 200, and every other method 405. *)
Theorem requests_without_body :
  forall (env : Capabilities) (request : HttpRequest),
    req_method request <> "POST" ->
    ((req_method request = "GET" /\
      (exists before after,
          accept request = Some (before ++ "text/event-stream" ++ after)) /\
      handleMcp env request =
      {| status := 405; headers := corsHeaders;
         body := TextBody "Only Streamable HTTP is supported" |}) \/
     (req_method request = "GET" /\
      ~ (exists before after,
            accept request = Some (before ++ "text/event-stream" ++ after)) /\
      handleMcp env request =
      {| status := 200; headers := jsonHeaders; body := InitializeBody |}) \/
     (req_method request <> "GET" /\
      handleMcp env request =
      {| status := 405; headers := corsHeaders; body := TextBody "Method not allowed" |}))
    /\
    (forall other,
        handleMcp env request =
        handleMcp env {| req_method := req_method request;
                         req_pathname := req_pathname request;
                         accept := accept request;
                         json := other |}).
Proof.
  intros env request Hpost. apply String.eqb_neq in Hpost.
  unfold handleMcp. cbn [req_method accept]. rewrite Hpost. cbn [negb].
  destruct (String.eqb (req_method request) "GET") eqn:Hget.
  - apply String.eqb_eq in Hget. cbn [andb].
    destruct (accept request) as [a|] eqn:Ha.
    + destruct (includes "text/event-stream" a) eqn:Hi.
      * split; [|reflexivity]. left. split; [exact Hget|]. split; [|reflexivity].
        apply includes_iff in Hi as [before [after ->]]. now exists before, after.
      * split; [|reflexivity]. right. left. split; [exact Hget|]. split; [|reflexivity].
        intros [before [after H]]. injection H as Heq.
        assert (Ht : includes "text/event-stream" a = true)
          by (apply includes_iff; now exists before, after).
        rewrite Ht in Hi. discriminate Hi.
    + split; [|reflexivity]. right. left. split; [exact Hget|]. split; [|reflexivity].
      intros [before [after H]]. discriminate H.
  - apply String.eqb_neq in Hget. cbn [andb].
    split; [|reflexivity]. right. right. now split.
Qed.

Lemma requests_without_body_witness :
  handleMcp Examples.env
    {| req_method := "GET"; req_pathname := "/mcp";
       accept := Some "application/json, text/event-stream";
       json := Throw "no body" |}
  = {| status := 405; headers := corsHeaders;
       body := TextBody "Only Streamable HTTP is supported" |}.
Proof.
  destruct (proj1 (requests_without_body Examples.env
                     {| req_method := "GET"; req_pathname := "/mcp";
                        accept := Some "application/json, text/event-stream";
                        json := Throw "no body" |}
                     ltac:(discriminate)))
    as [[_ [_ H]]|[[_ [Hno _]]|[Hne _]]].
  - exact H.
  - exfalso. apply Hno. exists "application/json, ", EmptyString. reflexivity.
  - exfalso. now apply Hne.
Defined.
